(** * HTCrystalBall: the resource-fit evaluation and ranking engine

    A shallow embedding of [htcrystalball.py]: the unit normaliser
    ([split_number_unit], [calc_to_bin], [split_duration_unit],
    [calc_to_min]), the slot inventory filter ([filter_slots]), the three
    fit evaluators ([check_dynamic_slots], [check_static_slots],
    [check_gpu_slots]), the ranker ([order_node_preview]) and the two
    drivers ([check_slots], [prepare_checking]).

    Conventions of the embedding.
    - Python [int] is [Z].  Python [float] is an exact rational [Q]:
      binary rounding and overflow of IEEE doubles are outside the model,
      so [a / b] is the exact quotient and [int], [round], [math.ceil]
      act on it.  Numeric results are therefore compared with [==].
    - A raised exception is the [Raise] case of [result].
    - The slot dictionaries of the inventory are objects that
      [filter_slots] updates in place; they live in a store indexed by
      locations, and lists of slots are lists of locations.
    - Rendering a float as text ([str(x)], ["{0:.2f}".format(x)]) is a
      parameter of the development (class [FloatText]). *)

From Stdlib Require Import ZArith QArith Qround Lia Ascii String.
From stdpp Require Import base tactics option list strings pretty functions sorting.

Local Open Scope Z_scope.

(** ** Exceptions *)

Inductive exn : Type :=
  | ZeroDivisionError
  | KeyError (key : string)
  | IndexError.

Inductive result (A : Type) : Type :=
  | Ok (a : A)
  | Raise (e : exn).
Arguments Ok {A} a.
Arguments Raise {A} e.

Definition rbind {A B : Type} (m : result A) (k : A -> result B) : result B :=
  match m with
  | Ok a => k a
  | Raise e => Raise e
  end.

Declare Scope result_scope.
Delimit Scope result_scope with result.
Notation "'let?' x ':=' m 'in' k" := (rbind m (fun x => k))
  (at level 10, x pattern, m at level 100, k at level 200) : result_scope.
Local Open Scope result_scope.

(** ** Python numbers *)

Module Py.

(** [a / b] on numbers: true division, [ZeroDivisionError] on a zero
    divisor. *)
Definition truediv (a b : Q) : result Q :=
  if Qeq_bool b 0 then Raise ZeroDivisionError else Ok (a / b)%Q.

(** [int(x)] on a float: truncation towards zero. *)
Definition int (x : Q) : Z := Z.quot (Qnum x) (Z.pos (Qden x)).

(** [round(x)] with one argument: the nearest integer, ties to even. *)
Definition round (x : Q) : Z :=
  let f := Qfloor x in
  match Qcompare (x - inject_Z f) (1 # 2) with
  | Lt => f
  | Gt => f + 1
  | Eq => if Z.even f then f else f + 1
  end.

(** [math.ceil(x)]. *)
Definition ceil (x : Q) : Z := Qceiling x.

(** [str(n)] on an int. *)
Definition str (n : Z) : string := pretty n.

(** [s.lower()], on ASCII text. *)
Definition lower_ascii (c : ascii) : ascii :=
  let n := N_of_ascii c in
  if ((65 <=? n) && (n <=? 90))%N then ascii_of_N (n + 32) else c.

Fixpoint lower (s : string) : string :=
  match s with
  | EmptyString => EmptyString
  | String c s' => String (lower_ascii c) (lower s')
  end.

(** [x in (a, b, c)] on strings. *)
Definition str_in (x : string) (t : list string) : bool :=
  existsb (String.eqb x) t.

(** [l[i]] for a non-negative literal index. *)
Definition index {A : Type} (l : list A) (i : nat) : result A :=
  match l !! i with
  | Some a => Ok a
  | None => Raise IndexError
  end.

End Py.

(** Rendering of floats as text, which the program leaves to Python. *)
Class FloatText : Type := {
  str_float : Q -> string;      (* str(x) *)
  format_2f : Q -> string       (* "{0:.2f}".format(x) *)
}.

(** ** Unit normaliser *)

Module Regex.

Definition is_digit (c : ascii) : bool :=
  let n := N_of_ascii c in ((48 <=? n) && (n <=? 57))%N.

Definition is_dot (c : ascii) : bool := Ascii.eqb c "."%char.

(** The longest prefix of digits and what follows it. *)
Fixpoint span_digits (s : list ascii) : list ascii * list ascii :=
  match s with
  | c :: s' =>
      if is_digit c
      then let '(ds, rest) := span_digits s' in (c :: ds, rest)
      else ([], s)
  | [] => ([], [])
  end.

(** The match of [\d*\.?\d+] at the start of [s], if there is one.
    [\d*] takes the whole run of digits; a dot is taken when a digit
    follows it and then the second run is taken whole; otherwise the
    engine backtracks to the first run alone, which must be non-empty. *)
Definition match_number (s : list ascii) : option (list ascii) :=
  let '(ds, rest) := span_digits s in
  match rest with
  | c :: rest' =>
      if is_dot c then
        match span_digits rest' with
        | (d :: fs, _) => Some (ds ++ c :: d :: fs)
        | ([], _) => match ds with [] => None | _ => Some ds end
        end
      else match ds with [] => None | _ => Some ds end
  | [] => match ds with [] => None | _ => Some ds end
  end.

Definition text (s : list ascii) : string := string_of_list_ascii s.

(** [re.split(r'(\d*\.?\d+)', s)]: the text before the first match,
    the match, the text up to the next match, ... and the text after
    the last match.  [skip] counts the characters of the current match
    that are still to be passed over; [pre] is the text read since the
    last match. *)
Fixpoint split_go (skip : nat) (pre : list ascii) (s : list ascii)
  : list string :=
  match s with
  | [] => [text pre]
  | c :: s' =>
      match skip with
      | S k => split_go k pre s'
      | O =>
          match match_number s with
          | Some m => text pre :: text m :: split_go (length m - 1) [] s'
          | None => split_go 0 (pre ++ [c]) s'
          end
      end
  end.

Definition split_number (s : string) : list string :=
  split_go 0 [] (list_ascii_of_string s).

End Regex.

(** [s.replace(' ', '')]. *)
Fixpoint remove_spaces (s : string) : string :=
  match s with
  | EmptyString => EmptyString
  | String c s' =>
      if Ascii.eqb c " "%char then remove_spaces s'
      else String c (remove_spaces s')
  end.

(** [float(s)] on the text of a match of [\d*\.?\d+]. *)
Module Float.

Definition digit_val (c : ascii) : Z := Z.of_N (N_of_ascii c) - 48.

Definition digits_val (ds : list ascii) : Z :=
  fold_left (fun acc c => 10 * acc + digit_val c) ds 0.

Definition of_chars (s : list ascii) : Q :=
  let '(ip, rest) := Regex.span_digits s in
  match rest with
  | _dot :: fp =>
      (inject_Z (digits_val ip)
       + inject_Z (digits_val fp) / inject_Z (10 ^ Z.of_nat (length fp)))%Q
  | [] => inject_Z (digits_val ip)
  end.

Definition of_string (s : string) : Q := of_chars (list_ascii_of_string s).

End Float.

(** The optional command-line strings are [None] when the flag is absent. *)
Definition split_number_unit (user_input : option string) : result (Q * string) :=
  match user_input with
  | None | Some EmptyString => Ok (0%Q, "GiB"%string)
  | Some user_input =>
      let splitted := Regex.split_number (remove_spaces user_input) in
      let? s1 := Py.index splitted 1 in
      let amount := Float.of_string s1 in
      let? s2 := Py.index splitted 2 in
      let unit := if String.eqb s2 "" then "GiB"%string else s2 in
      Ok (amount, unit)
  end.

Definition split_duration_unit (user_input : option string) : result (Q * string) :=
  match user_input with
  | None | Some EmptyString => Ok (0%Q, "min"%string)
  | Some user_input =>
      let splitted := Regex.split_number (remove_spaces user_input) in
      let? s1 := Py.index splitted 1 in
      let amount := Float.of_string s1 in
      let? s2 := Py.index splitted 2 in
      let unit := if String.eqb s2 "" then "min"%string else s2 in
      Ok (amount, unit)
  end.

Definition calc_to_bin (number : Q) (unit : string) : Q :=
  let unit_indicator := Py.lower unit in
  if Py.str_in unit_indicator ["kb"; "k"; "kib"]%string then
    (number / inject_Z (10 ^ 6))%Q
  else if Py.str_in unit_indicator ["mb"; "m"; "mib"]%string then
    (number / inject_Z (10 ^ 3))%Q
  else if Py.str_in unit_indicator ["tb"; "t"; "tib"]%string then
    (number * inject_Z (10 ^ 3))%Q
  else if Py.str_in unit_indicator ["pb"; "p"; "pib"]%string then
    (number * inject_Z (10 ^ 6))%Q
  else number.

Definition calc_to_min (number : Q) (unit : string) : Q :=
  let unit_indicator := Py.lower unit in
  if Py.str_in unit_indicator ["d"; "dd"]%string then
    (number * 24 * 60)%Q
  else if Py.str_in unit_indicator ["h"; "hh"]%string then
    (number * 60)%Q
  else if Py.str_in unit_indicator ["s"; "ss"]%string then
    (number / 60)%Q
  else number.

(** The check of [validate_storage_size]:
    [^[0-9]+([kKmMgGtTpP]i?[bB]?)$]. *)
Definition is_prefix_letter (c : ascii) : bool :=
  existsb (Ascii.eqb c) (list_ascii_of_string "kKmMgGtTpP").

Definition is_unit_token (u : list ascii) : bool :=
  match u with
  | p :: rest =>
      is_prefix_letter p &&
      match rest with
      | [] => true
      | [c] => Ascii.eqb c "i" || Ascii.eqb c "b" || Ascii.eqb c "B"
      | [c1; c2] => Ascii.eqb c1 "i" && (Ascii.eqb c2 "b" || Ascii.eqb c2 "B")
      | _ => false
      end
  | [] => false
  end.

Definition validate_storage_size (arg_value : string) : bool :=
  let '(ds, rest) := Regex.span_digits (list_ascii_of_string arg_value) in
  match ds with
  | [] => false
  | _ => is_unit_token rest
  end.

(** ** Data model *)

(** A slot-size entry of the inventory: a dictionary with fixed keys.
    The key ["UtsnameNodename"] is absent until [filter_slots] writes it. *)
Record slot : Type := {
  SlotType : string;
  TotalSlots : Z;
  TotalSlotCpus : Z;
  TotalSlotMemory : Q;
  TotalSlotDisk : Q;
  TotalSlotGPUs : Z;
  UtsnameNodename : option string
}.

Definition loc : Type := nat.

(** A node entry: its name and its slot-size entries (objects in the store). *)
Record node : Type := {
  node_UtsnameNodename : string;
  slot_size : list loc
}.

(** A value that is an int on one path and text on another. *)
Inductive pyval : Type :=
  | PInt (n : Z)
  | PStr (s : string).

(** The capacity view of one slot ([node_dict]); ['gpus'] is present for
    gpu slots only. *)
Record node_dict : Type := {
  nd_node : string;
  nd_type : string;
  nd_total_slots : string;
  nd_cores : string;
  nd_gpus : option string;
  nd_disk : string;
  nd_ram : string
}.

(** The fit view of one slot ([preview_node]).  The placeholder ['------']
    of ['sim_jobs'] is overwritten with an int on both branches of every
    evaluator, so the field is an int here. *)
Record preview_node : Type := {
  pv_name : string;
  pv_type : string;
  pv_fits : string;
  pv_core_usage : string;
  pv_gpu_usage : string;
  pv_ram_usage : string;
  pv_sim_jobs : Z;
  pv_wall_time_on_idle : pyval
}.

(** The dictionary [preview_res] of [check_slots]. *)
Record preview_dict : Type := {
  res_slots : list node_dict;
  res_preview : list preview_node
}.

(** ** Fit evaluators *)

Section Evaluators.
Context `{FloatText}.

Definition slot_name (s : slot) : result string :=
  match UtsnameNodename s with
  | Some n => Ok n
  | None => Raise (KeyError "UtsnameNodename")
  end.

(** [str(int(round((a / b) * 100)))]. *)
Definition percent (a b : Q) : result string :=
  let? q := Py.truediv a b in
  Ok (Py.str (Py.round (q * 100))).

(** [str(n) + "/" + str(cap) + " (" + percent + "%)"]. *)
Definition int_usage (n cap : Z) : result string :=
  let? p := percent (inject_Z n) (inject_Z cap) in
  Ok (Py.str n +:+ "/" +:+ Py.str cap +:+ " (" +:+ p +:+ "%)").

(** ["{0:.2f}".format(ram) + "/" + str(mem) + " GiB (" + percent + "%)"]. *)
Definition ram_usage_text (amount_ram mem : Q) : result string :=
  let? p := percent amount_ram mem in
  Ok (format_2f amount_ram +:+ "/" +:+ str_float mem +:+ " GiB (" +:+ p +:+ "%)").

(** [int(a / b)]. *)
Definition int_div (a b : Q) : result Z :=
  let? q := Py.truediv a b in Ok (Py.int q).

Definition check_dynamic_slots (slot : slot) (num_cpu : Z) (amount_ram : Q)
    (job_duration : Q) (num_jobs : Z) : result (node_dict * preview_node) :=
  let available_cores := TotalSlotCpus slot in
  let? name := slot_name slot in
  let node_dict :=
    {| nd_node := name;
       nd_type := SlotType slot;
       nd_total_slots := Py.str (TotalSlots slot);
       nd_cores := Py.str (TotalSlotCpus slot);
       nd_gpus := None;
       nd_disk := str_float (TotalSlotDisk slot);
       nd_ram := str_float (TotalSlotMemory slot) |} in
  let? (core_usage, ram_usage, fits, sim_jobs) :=
    if (num_cpu <=? available_cores) &&
       Qle_bool amount_ram (TotalSlotMemory slot)
    then
      let? core_usage := int_usage num_cpu (TotalSlotCpus slot) in
      let? ram_usage := ram_usage_text amount_ram (TotalSlotMemory slot) in
      let? by_cpu := int_div (inject_Z available_cores) (inject_Z num_cpu) in
      let? by_ram := int_div (TotalSlotMemory slot) amount_ram in
      Ok (core_usage, ram_usage, "YES"%string, Z.min by_cpu by_ram)
    else
      let? core_usage := int_usage num_cpu (TotalSlotCpus slot) in
      let? ram_usage := ram_usage_text amount_ram (TotalSlotMemory slot) in
      Ok (core_usage, ram_usage, "NO"%string, 0) in
  let? wall_time_on_idle :=
    if (num_cpu <=? TotalSlotCpus slot) &&
       Qle_bool amount_ram (TotalSlotMemory slot) &&
       negb (Qeq_bool job_duration 0)
    then
      let? cpu_fits :=
        int_div (inject_Z (TotalSlotCpus slot)) (inject_Z num_cpu) in
      let? jobs_parallel :=
        if Qeq_bool amount_ram 0 then Ok cpu_fits
        else
          let? by_ram := int_div (TotalSlotMemory slot) amount_ram in
          Ok (Z.min cpu_fits by_ram) in
      let? q := Py.truediv (inject_Z num_jobs) (inject_Z jobs_parallel) in
      Ok (PStr (str_float (inject_Z (Py.ceil q) * job_duration)))
    else Ok (PInt 0) in
  Ok (node_dict,
      {| pv_name := name;
         pv_type := "dynamic";
         pv_fits := fits;
         pv_core_usage := core_usage;
         pv_gpu_usage := "------";
         pv_ram_usage := ram_usage;
         pv_sim_jobs := sim_jobs;
         pv_wall_time_on_idle := wall_time_on_idle |}).

Definition check_static_slots (slot : slot) (num_cores : Z) (amount_ram : Q)
    (job_duration : Q) (num_jobs : Z) : result (node_dict * preview_node) :=
  let available_slots := TotalSlotCpus slot in
  let? name := slot_name slot in
  let node_dict :=
    {| nd_node := name;
       nd_type := SlotType slot;
       nd_total_slots := Py.str (TotalSlots slot);
       nd_cores := Py.str (TotalSlotCpus slot);
       nd_gpus := None;
       nd_disk := str_float (TotalSlotDisk slot);
       nd_ram := str_float (TotalSlotMemory slot) |} in
  let? (core_usage, ram_usage, fits, sim_jobs, wall_time_on_idle) :=
    if (num_cores <=? TotalSlotCpus slot) &&
       Qle_bool amount_ram (TotalSlotMemory slot)
    then
      let? core_usage := int_usage num_cores (TotalSlotCpus slot) in
      let sim_jobs := available_slots in
      let? ram_usage := ram_usage_text amount_ram (TotalSlotMemory slot) in
      let? wall_time_on_idle :=
        if negb (Qeq_bool job_duration 0) then
          let? cpu_fits :=
            int_div (inject_Z (TotalSlotCpus slot)) (inject_Z num_cores) in
          let? jobs_on_idle_slot :=
            if Qeq_bool amount_ram 0 then Ok cpu_fits
            else
              let? by_ram := int_div (TotalSlotMemory slot) amount_ram in
              Ok (Z.min cpu_fits by_ram) in
          let? q1 :=
            Py.truediv (inject_Z num_jobs) (inject_Z jobs_on_idle_slot) in
          let? q2 := Py.truediv q1 (inject_Z (TotalSlots slot)) in
          Ok (PStr (str_float (inject_Z (Py.ceil q2) * job_duration)))
        else Ok (PInt 0) in
      Ok (core_usage, ram_usage, "YES"%string, sim_jobs, wall_time_on_idle)
    else
      let? core_usage := int_usage num_cores (TotalSlotCpus slot) in
      let? ram_usage := ram_usage_text amount_ram (TotalSlotMemory slot) in
      Ok (core_usage, ram_usage, "NO"%string, 0, PInt 0) in
  Ok (node_dict,
      {| pv_name := name;
         pv_type := "static";
         pv_fits := fits;
         pv_core_usage := core_usage;
         pv_gpu_usage := "------";
         pv_ram_usage := ram_usage;
         pv_sim_jobs := sim_jobs;
         pv_wall_time_on_idle := wall_time_on_idle |}).

Definition check_gpu_slots (slot : slot) (num_cores : Z) (num_gpu : Z)
    (amount_ram : Q) (job_duration : Q) (num_jobs : Z)
  : result (node_dict * preview_node) :=
  let available_slots := TotalSlotCpus slot in
  let? name := slot_name slot in
  let node_dict :=
    {| nd_node := name;
       nd_type := SlotType slot;
       nd_total_slots := Py.str (TotalSlots slot);
       nd_cores := Py.str (TotalSlotCpus slot);
       nd_gpus := Some (Py.str (TotalSlotGPUs slot));
       nd_disk := str_float (TotalSlotDisk slot);
       nd_ram := str_float (TotalSlotMemory slot) |} in
  let? (core_usage, gpu_usage, ram_usage, fits, sim_jobs, wall_time_on_idle) :=
    if (num_cores <=? TotalSlotCpus slot) &&
       Qle_bool amount_ram (TotalSlotMemory slot) &&
       (num_gpu <=? TotalSlotGPUs slot)
    then
      let? core_usage := int_usage num_cores (TotalSlotCpus slot) in
      let? gpu_usage := int_usage num_gpu (TotalSlotGPUs slot) in
      let? by_gpu :=
        int_div (inject_Z (TotalSlotGPUs slot)) (inject_Z num_gpu) in
      let? by_cpu := int_div (inject_Z available_slots) (inject_Z num_cores) in
      let? by_ram := int_div (TotalSlotMemory slot) amount_ram in
      let sim_jobs := Z.min (Z.min by_gpu by_cpu) by_ram in
      let? ram_usage := ram_usage_text amount_ram (TotalSlotMemory slot) in
      let? wall_time_on_idle :=
        if negb (Qeq_bool job_duration 0) then
          let? cpu_fits :=
            int_div (inject_Z (TotalSlotCpus slot)) (inject_Z num_cores) in
          let? gpu_fits :=
            int_div (inject_Z (TotalSlotGPUs slot)) (inject_Z num_gpu) in
          let? jobs_on_idle_slot :=
            if Qeq_bool amount_ram 0 then Ok (Z.min cpu_fits gpu_fits)
            else
              let? by_ram := int_div (TotalSlotMemory slot) amount_ram in
              Ok (Z.min (Z.min cpu_fits gpu_fits) by_ram) in
          let? q1 :=
            Py.truediv (inject_Z num_jobs) (inject_Z jobs_on_idle_slot) in
          let? q2 := Py.truediv q1 (inject_Z (TotalSlotGPUs slot)) in
          Ok (PStr (str_float (inject_Z (Py.ceil q2) * job_duration)))
        else Ok (PInt 0) in
      Ok (core_usage, gpu_usage, ram_usage, "YES"%string, sim_jobs,
          wall_time_on_idle)
    else
      let? core_usage := int_usage num_cores (TotalSlotCpus slot) in
      let? gpu_usage :=
        if TotalSlotGPUs slot =? 0 then Ok "No GPU ressource!"%string
        else int_usage num_gpu (TotalSlotGPUs slot) in
      let? ram_usage := ram_usage_text amount_ram (TotalSlotMemory slot) in
      Ok (core_usage, gpu_usage, ram_usage, "NO"%string, 0, PInt 0) in
  Ok (node_dict,
      {| pv_name := name;
         pv_type := "gpu";
         pv_fits := fits;
         pv_core_usage := core_usage;
         pv_gpu_usage := gpu_usage;
         pv_ram_usage := ram_usage;
         pv_sim_jobs := sim_jobs;
         pv_wall_time_on_idle := wall_time_on_idle |}).

End Evaluators.

(** ** The store, the console and the monad of the drivers *)

(** Levels of the [logging] module; the module sets the root logger to
    [ERROR] with [logging.basicConfig(level=logging.ERROR)], and every
    message of the engine goes through the root logger. *)
Inductive level : Type := INFO | WARNING | ERROR.

Definition level_no (l : level) : Z :=
  match l with INFO => 20 | WARNING => 30 | ERROR => 40 end.

Definition root_level : level := ERROR.

(** What reaches the terminal: log records and the three tables.
    Rendering the tables is presentation and is not modelled; an event
    carries the data handed to the printing function. *)
Inductive event : Type :=
  | Logged (lvl : level) (msg : string)
  | InputTable (num_cpu : Z) (amount_ram amount_disk : Q) (num_gpu num_jobs : Z)
      (num_duration : Q) (max_nodes : Z)
  | SlotsTable (slots : list node_dict)
  | ResultTable (preview : list preview_node) (verbose : bool).

Record world : Type := {
  heap : loc -> slot;
  console : list event
}.

Definition M (A : Type) : Type := world -> result A * world.

Definition ret {A : Type} (a : A) : M A := fun w => (Ok a, w).

Definition bind {A B : Type} (m : M A) (k : A -> M B) : M B :=
  fun w =>
    match m w with
    | (Ok a, w') => k a w'
    | (Raise e, w') => (Raise e, w')
    end.

Definition lift {A : Type} (r : result A) : M A := fun w => (r, w).

Definition emit (e : event) : M unit :=
  fun w => (Ok tt, {| heap := heap w; console := console w ++ [e] |}).

Definition get_heap : M (loc -> slot) := fun w => (Ok (heap w), w).

Definition set_item (l : loc) (s : slot) : M unit :=
  fun w => (Ok tt, {| heap := <[l := s]> (heap w); console := console w |}).

Definition logging_log (lvl : level) (msg : string) : M unit :=
  if level_no root_level <=? level_no lvl then emit (Logged lvl msg)
  else ret tt.

Declare Scope M_scope.
Delimit Scope M_scope with M.
Notation "'do' x '<-' m ';' k" := (bind m (fun x => k))
  (at level 10, x pattern, m at level 100, k at level 200) : M_scope.
Notation "m ';;' k" := (bind m (fun _ => k))
  (at level 100, k at level 200, right associativity) : M_scope.

(** ** Slot inventory filter *)

(** [slot["UtsnameNodename"] = name], on the dictionary [s]. *)
Definition set_nodename (name : string) (s : slot) : slot :=
  {| SlotType := SlotType s;
     TotalSlots := TotalSlots s;
     TotalSlotCpus := TotalSlotCpus s;
     TotalSlotMemory := TotalSlotMemory s;
     TotalSlotDisk := TotalSlotDisk s;
     TotalSlotGPUs := TotalSlotGPUs s;
     UtsnameNodename := Some name |}.

(** The inner loop of [filter_slots] over one node's entries. *)
Fixpoint filter_node (name : string) (slot_type : string) (entries : list loc)
    (res : list loc) : M (list loc) :=
  match entries with
  | [] => ret res
  | l :: entries' =>
      (do h <- get_heap;
       if String.eqb (SlotType (h l)) slot_type then
         set_item l (set_nodename name (h l));;
         filter_node name slot_type entries' (res ++ [l])
       else filter_node name slot_type entries' res)%M
  end.

(** The outer loop of [filter_slots]. *)
Fixpoint filter_nodes (slots : list node) (slot_type : string)
    (res : list loc) : M (list loc) :=
  match slots with
  | [] => ret res
  | n :: slots' =>
      (do res' <- filter_node (node_UtsnameNodename n) slot_type (slot_size n) res;
       filter_nodes slots' slot_type res')%M
  end.

Definition filter_slots (slots : list node) (slot_type : string) : M (list loc) :=
  filter_nodes slots slot_type [].

(** ** Ranker *)

(** [sorted(l, key=key, reverse=True)]: Python's sort is stable, and with
    [reverse=True] elements with equal keys keep their original order.
    It is embedded as a stable insertion sort; [sorted_reverse_unique]
    below shows that the result does not depend on this choice. *)
Fixpoint insert_reverse {A : Type} (key : A -> Z) (x : A) (l : list A) : list A :=
  match l with
  | [] => [x]
  | y :: l' => if key x <? key y then y :: insert_reverse key x l' else x :: l
  end.

Definition sorted_reverse {A : Type} (key : A -> Z) (l : list A) : list A :=
  foldr (insert_reverse key) [] l.

Definition order_node_preview (node_preview : list preview_node)
  : list preview_node :=
  sorted_reverse pv_sim_jobs node_preview.

(** [l[:k]]: a negative [k] counts from the end. *)
Definition slice_to {A : Type} (l : list A) (k : Z) : list A :=
  if k <? 0 then take (Z.to_nat (Z.of_nat (length l) + k)) l
  else take (Z.to_nat k) l.

(** Lines 443 to 445 of [check_slots]: ranking, then the cap. *)
Definition rank (maxnodes : Z) (preview : list preview_node)
  : list preview_node :=
  let preview := order_node_preview preview in
  if negb (maxnodes =? 0) && (maxnodes <? Z.of_nat (length preview))
  then slice_to preview maxnodes
  else preview.

(** ** Drivers *)

Section Drivers.
Context `{FloatText}.

(** One [for node in ...] loop of [check_slots]. *)
Fixpoint check_each (check : slot -> result (node_dict * preview_node))
    (nodes : list loc) (h : loc -> slot) (preview_res : preview_dict)
  : result preview_dict :=
  match nodes with
  | [] => Ok preview_res
  | l :: nodes' =>
      let? (node_dict, preview_node) := check (h l) in
      check_each check nodes' h
        {| res_slots := res_slots preview_res ++ [node_dict];
           res_preview := res_preview preview_res ++ [preview_node] |}
  end.

(** The three printing functions.  [pretty_print_slots] reads the key
    ['gpus'] of every row of type ["gpu"] while it builds the table. *)
Definition pretty_print_input (num_cpu : Z) (amount_ram amount_disk : Q)
    (num_gpu num_jobs : Z) (num_duration : Q) (max_nodes : Z) : M unit :=
  emit (InputTable num_cpu amount_ram amount_disk num_gpu num_jobs
          num_duration max_nodes).

Definition has_gpus_if_gpu (row : node_dict) : bool :=
  negb (String.eqb (nd_type row) "gpu") ||
  match nd_gpus row with Some _ => true | None => false end.

Definition pretty_print_slots (result : preview_dict) : M unit :=
  if forallb has_gpus_if_gpu (res_slots result)
  then emit (SlotsTable (res_slots result))
  else lift (Raise (KeyError "gpus")).

Definition pretty_print_result (result : preview_dict) (verbose : bool)
  : M unit :=
  emit (ResultTable (res_preview result) verbose).

(** The result is [None] for the empty dictionary [{}]. *)
Definition check_slots (static dynamic gpu : list loc) (num_cpu : Z)
    (amount_ram amount_disk : Q) (num_gpu num_jobs : Z) (job_duration : Q)
    (maxnodes : Z) (verbose : bool) : M (option preview_dict) :=
  ((if verbose
    then pretty_print_input num_cpu amount_ram amount_disk num_gpu num_jobs
           job_duration maxnodes
    else ret tt);;
   let preview_res := {| res_slots := []; res_preview := [] |} in
   do h <- get_heap;
   do evaluated <-
     (if negb (num_cpu =? 0) && (num_gpu =? 0) then
        do r <- lift (check_each
                        (fun node => check_dynamic_slots node num_cpu
                                       amount_ram job_duration num_jobs)
                        dynamic h preview_res);
        do r <- lift (check_each
                        (fun node => check_static_slots node num_cpu
                                       amount_ram job_duration num_jobs)
                        static h r);
        ret (Some r)
      else if negb (num_cpu =? 0) && negb (num_gpu =? 0) then
        do r <- lift (check_each
                        (fun node => check_gpu_slots node num_cpu num_gpu
                                       amount_ram job_duration num_jobs)
                        gpu h preview_res);
        ret (Some r)
      else ret None);
   match evaluated with
   | None => ret None
   | Some r =>
       let preview_res :=
         {| res_slots := res_slots r;
            res_preview := rank maxnodes (res_preview r) |} in
       (if verbose then pretty_print_slots preview_res else ret tt);;
       pretty_print_result preview_res verbose;;
       ret (Some preview_res)
   end)%M.

(** [slot_config] is what [define_slots()] loaded from the
    configuration file; the entries it refers to are in the store. *)
Definition prepare_checking (slot_config : list node) (cpu gpu : Z)
    (ram disk : option string) (jobs : Z) (job_duration : option string)
    (maxnodes : Z) (verbose : bool) : M bool :=
  (do static_slts <- filter_slots slot_config "static";
   do dynamic_slts <- filter_slots slot_config "dynamic";
   do gpu_slts <- filter_slots slot_config "gpu";
   do (ram, ram_unit) <- lift (split_number_unit ram);
   let ram := calc_to_bin ram ram_unit in
   do (disk, disk_unit) <- lift (split_number_unit disk);
   let disk := calc_to_bin disk disk_unit in
   do (job_duration, duration_unit) <- lift (split_duration_unit job_duration);
   let job_duration := calc_to_min job_duration duration_unit in
   if cpu =? 0 then
     logging_log WARNING "No number of CPU workers given --- ABORTING";;
     ret false
   else if Qeq_bool ram 0 then
     logging_log WARNING "No RAM amount given --- ABORTING";;
     ret false
   else
     check_slots static_slts dynamic_slts gpu_slts cpu ram disk gpu
       jobs job_duration maxnodes verbose;;
     ret true)%M.

End Drivers.

(** ** Vocabulary of the properties *)

(** [x] may stand before [y] in a list that is descending by [key]. *)
Definition desc {A : Type} (key : A -> Z) (x y : A) : Prop := key y <= key x.

(** The elements with key [k], in their order in [l]. *)
Definition with_key {A : Type} (key : A -> Z) (k : Z) (l : list A) : list A :=
  filter (fun x => key x = k) l.

(** A rendering of floats for the concrete examples: the reduced
    fraction.  The theorems hold for every rendering. *)
Definition fraction_text : FloatText :=
  {| str_float := fun q =>
       Py.str (Qnum (Qred q)) +:+ "/" +:+ Py.str (Z.pos (Qden (Qred q)));
     format_2f := fun q =>
       Py.str (Qnum (Qred q)) +:+ "/" +:+ Py.str (Z.pos (Qden (Qred q))) |}.

(** The conversion table of the specification, by prefix letter. *)
Inductive prefix : Type := Kilo | Mega | Giga | Tera | Peta.

Definition prefix_letter (p : prefix) : string :=
  match p with
  | Kilo => "k" | Mega => "m" | Giga => "g" | Tera => "t" | Peta => "p"
  end.

Definition prefix_rule (p : prefix) (amount : Q) : Q :=
  match p with
  | Kilo => amount / inject_Z (10 ^ 6)
  | Mega => amount / inject_Z (10 ^ 3)
  | Giga => amount
  | Tera => amount * inject_Z (10 ^ 3)
  | Peta => amount * inject_Z (10 ^ 6)
  end%Q.

(** The slot-size entries of an inventory, in inventory order. *)
Definition entries_of (slots : list node) : list loc :=
  concat (map slot_size slots).

(** The entries of one class, in inventory order. *)
Definition of_class (h : loc -> slot) (slot_type : string) (entries : list loc)
  : list loc :=
  filter (fun l => SlotType (h l) = slot_type) entries.

(** "No record is mutated": the store after [filter_slots] is the store
    before it. *)
Definition leaves_inventory (slots : list node) (slot_type : string)
    (w : world) : Prop :=
  forall l, heap (snd (filter_slots slots slot_type w)) l = heap w l.

(** An event with the disk column of the input table blanked. *)
Definition forget_disk (e : event) : event :=
  match e with
  | InputTable num_cpu amount_ram _ num_gpu num_jobs num_duration max_nodes =>
      InputTable num_cpu amount_ram 0 num_gpu num_jobs num_duration max_nodes
  | _ => e
  end.

(** ** Concrete inventories for the examples *)

Module Sample.

Definition entry (ty : string) (slots cpus : Z) (mem disk : Q) (gpus : Z)
  : slot :=
  {| SlotType := ty; TotalSlots := slots; TotalSlotCpus := cpus;
     TotalSlotMemory := mem; TotalSlotDisk := disk; TotalSlotGPUs := gpus;
     UtsnameNodename := None |}.

(** The store as [json.load] leaves it: no entry carries a node name. *)
Definition entries (l : loc) : slot :=
  match l with
  | 0%nat => entry "static" 10 8 64 100 0
  | 1%nat => entry "dynamic" 1 32 500 1000 0
  | 2%nat => entry "gpu" 2 4 128 100 0
  | 3%nat => entry "gpu" 2 8 256 100 4
  | 4%nat => entry "dynamic" 1 0 500 1000 0
  | 5%nat => entry "gpu" 2 0 128 100 0
  | 6%nat => entry "static" 4 2 0 100 0
  | _ => entry "static" 1 1 1 1 0
  end.

Definition inventory : list node :=
  [ {| node_UtsnameNodename := "cpu1"; slot_size := [0; 1]%nat |};
    {| node_UtsnameNodename := "gpu1"; slot_size := [2; 3]%nat |} ].

(** An inventory with entries of zero CPU or RAM capacity. *)
Definition inventory_degenerate : list node :=
  [ {| node_UtsnameNodename := "odd1"; slot_size := [4; 5; 6]%nat |};
    {| node_UtsnameNodename := "gpu1"; slot_size := [2; 3]%nat |} ].

Definition start : world := {| heap := entries; console := [] |}.

(** Entries as the evaluators receive them, after [filter_slots]. *)
Definition static_10x8 : slot := set_nodename "cpu1" (entries 0%nat).
Definition dynamic_32 : slot := set_nodename "cpu1" (entries 1%nat).
Definition gpu_none : slot := set_nodename "gpu1" (entries 2%nat).
Definition dynamic_no_cpu : slot := set_nodename "odd1" (entries 4%nat).
Definition gpu_no_cpu : slot := set_nodename "odd1" (entries 5%nat).
Definition static_no_ram : slot := set_nodename "odd1" (entries 6%nat).

(** [start] after the three calls of [filter_slots] on an inventory. *)
Definition filtered (slots : list node) : world :=
  snd ((filter_slots slots "static";;
        filter_slots slots "dynamic";;
        filter_slots slots "gpu")%M start).

Definition filtered_healthy : world := filtered inventory.
Definition filtered_degenerate : world := filtered inventory_degenerate.

Definition pv (name : string) (sim_jobs : Z) : preview_node :=
  {| pv_name := name; pv_type := "dynamic"; pv_fits := "YES";
     pv_core_usage := ""; pv_gpu_usage := "------"; pv_ram_usage := "";
     pv_sim_jobs := sim_jobs; pv_wall_time_on_idle := PInt 0 |}.

Definition previews : list preview_node :=
  [pv "a" 2; pv "b" 8; pv "c" 2; pv "d" 0; pv "e" 8].

End Sample.

(** ** Vocabulary of the further properties *)

(** Text with a decimal digit in it, text of decimal digits only, and
    text with neither a digit nor a space.  Text is ASCII here: the other
    Unicode decimal digits, which [\d] and [float] of Python accept as
    well, are outside the model. *)
Definition has_digit (s : string) : bool :=
  existsb Regex.is_digit (list_ascii_of_string s).







(** * Properties *)

(** ** The unit normaliser on examples *)

Example split_10GB :
  Regex.split_number "10GB" = [""; "10"; "GB"]%string.
Proof. reflexivity. Qed.

Example split_decimal :
  Regex.split_number "a1.5b.c2.d" = ["a"; "1.5"; "b.c"; "2"; ".d"]%string.
Proof. reflexivity. Qed.

Example split_trailing :
  Regex.split_number "7" = [""; "7"; ""]%string.
Proof. reflexivity. Qed.


(** ** The ranker: a stable sort, descending *)

Section SortedReverse.
Context {A : Type} (key : A -> Z).

#[local] Abbreviation desc := (desc key).
#[local] Abbreviation with_key := (with_key key).

Lemma insert_reverse_perm (x : A) (l : list A) :
  insert_reverse key x l ≡ₚ x :: l.
Proof.
  induction l as [|y l IH]; simpl; [done|].
  destruct (key x <? key y); [|done].
  rewrite IH. apply Permutation_swap.
Qed.

Lemma sorted_reverse_perm (l : list A) : sorted_reverse key l ≡ₚ l.
Proof.
  induction l as [|x l IH]; simpl; [done|].
  rewrite insert_reverse_perm. by rewrite IH.
Qed.

Lemma sorted_reverse_length (l : list A) :
  length (sorted_reverse key l) = length l.
Proof. by rewrite sorted_reverse_perm. Qed.

Lemma insert_reverse_desc (x : A) (l : list A) :
  StronglySorted desc l -> StronglySorted desc (insert_reverse key x l).
Proof.
  induction 1 as [|y l Hl IH Hy]; simpl.
  - repeat constructor.
  - destruct (Z.ltb_spec (key x) (key y)) as [Hlt|Hge].
    + constructor; [done|].
      rewrite insert_reverse_perm. constructor; [unfold desc; lia|done].
    + constructor; [by constructor|].
      constructor; [done|].
      eapply Forall_impl; [exact Hy|]. unfold desc. intros; lia.
Qed.

Lemma sorted_reverse_desc (l : list A) :
  StronglySorted desc (sorted_reverse key l).
Proof.
  induction l as [|x l IH]; simpl; [constructor|].
  by apply insert_reverse_desc.
Qed.

Lemma with_key_insert_reverse (k : Z) (x : A) (l : list A) :
  with_key k (insert_reverse key x l) = with_key k (x :: l).
Proof.
  unfold with_key. induction l as [|y l IH]; simpl; [done|].
  destruct (Z.ltb_spec (key x) (key y)) as [Hlt|Hge]; [|done].
  rewrite (filter_cons _ y), IH, !filter_cons.
  repeat case_decide; try done; lia.
Qed.

(** Stability: elements with equal keys keep their input order. *)
Lemma sorted_reverse_stable (k : Z) (l : list A) :
  with_key k (sorted_reverse key l) = with_key k l.
Proof.
  induction l as [|x l IH]; simpl; [done|].
  rewrite with_key_insert_reverse. unfold with_key in *.
  by rewrite !filter_cons, IH.
Qed.

(** A descending list is left as it is. *)
Lemma sorted_reverse_fixed (l : list A) :
  StronglySorted desc l -> sorted_reverse key l = l.
Proof.
  induction 1 as [|x l Hl IH Hx]; simpl; [done|].
  rewrite IH. destruct Hx as [|y l' Hy _]; simpl; [done|].
  unfold desc in Hy. destruct (Z.ltb_spec (key x) (key y)); [lia|done].
Qed.

Lemma sorted_reverse_idempotent (l : list A) :
  sorted_reverse key (sorted_reverse key l) = sorted_reverse key l.
Proof. apply sorted_reverse_fixed, sorted_reverse_desc. Qed.

Lemma with_key_head (x : A) (l : list A) :
  with_key (key x) (x :: l) = x :: with_key (key x) l.
Proof. unfold with_key. by rewrite filter_cons_True. Qed.

Lemma with_key_elem (k : Z) (x : A) (l : list A) :
  x ∈ with_key k l <-> x ∈ l /\ key x = k.
Proof. unfold with_key. by rewrite list_elem_of_filter, (comm and). Qed.

(** Two descending lists with the same elements in the same order for
    every key are equal: a stable descending sort has one result. *)
Lemma desc_stable_unique (l1 l2 : list A) :
  StronglySorted desc l1 -> StronglySorted desc l2 ->
  (forall k, with_key k l1 = with_key k l2) ->
  l1 = l2.
Proof.
  intros H1. revert l2.
  induction H1 as [|x l1 Hl1 IH Hx]; intros l2 H2 Heq.
  - destruct l2 as [|y l2]; [done|].
    specialize (Heq (key y)). rewrite with_key_head in Heq. done.
  - destruct H2 as [|y l2 Hl2 Hy].
    { specialize (Heq (key x)). rewrite with_key_head in Heq. done. }
    assert (key x = key y) as Hk.
    { destruct (decide (key x = key y)) as [|Hne]; [done|].
      assert (x ∈ l2) as Hxl2.
      { assert (x ∈ with_key (key x) (y :: l2)) as Hin.
        { rewrite <- Heq, with_key_head. left. }
        apply with_key_elem in Hin as [Hin _].
        apply elem_of_cons in Hin as [->|]; done. }
      assert (y ∈ l1) as Hyl1.
      { assert (y ∈ with_key (key y) (x :: l1)) as Hin.
        { rewrite Heq, with_key_head. left. }
        apply with_key_elem in Hin as [Hin _].
        apply elem_of_cons in Hin as [->|]; done. }
      rewrite Forall_forall in Hx, Hy.
      specialize (Hx _ Hyl1). specialize (Hy _ Hxl2).
      unfold desc in *. lia. }
    pose proof (Heq (key x)) as Hhead.
    rewrite with_key_head, Hk, with_key_head in Hhead.
    injection Hhead as -> Htail. f_equal.
    apply IH; [done|]. intros k.
    destruct (decide (key y = k)) as [<-|Hne]; [done|].
    specialize (Heq k). unfold with_key in *.
    by rewrite !filter_cons_False in Heq.
Qed.

Theorem sorted_reverse_unique (l l' : list A) :
  StronglySorted desc l' ->
  (forall k, with_key k l' = with_key k l) ->
  l' = sorted_reverse key l.
Proof.
  intros Hs Hst. apply desc_stable_unique; [done|apply sorted_reverse_desc|].
  intros k. by rewrite sorted_reverse_stable.
Qed.

End SortedReverse.

(** ** The ranker of [check_slots] *)

Lemma rank_uncapped (l : list preview_node) : rank 0 l = order_node_preview l.
Proof. done. Qed.

Lemma rank_capped (k : Z) (l : list preview_node) :
  0 < k -> k < Z.of_nat (length l) ->
  rank k l = take (Z.to_nat k) (order_node_preview l).
Proof.
  intros Hk Hlen. unfold rank, order_node_preview, slice_to.
  rewrite sorted_reverse_length.
  destruct (Z.eqb_spec k 0); [lia|].
  destruct (Z.ltb_spec k (Z.of_nat (length l))); [|lia].
  destruct (Z.ltb_spec k 0); [lia|done].
Qed.

Lemma rank_within (k : Z) (l : list preview_node) :
  0 <= k -> Z.of_nat (length l) <= k -> rank k l = order_node_preview l.
Proof.
  intros Hk Hlen. unfold rank, order_node_preview.
  rewrite sorted_reverse_length.
  destruct (Z.ltb_spec k (Z.of_nat (length l))); [lia|].
  by rewrite andb_false_r.
Qed.

Lemma take_desc {A : Type} (key : A -> Z) (n : nat) (l : list A) :
  StronglySorted (desc key) l -> StronglySorted (desc key) (take n l).
Proof.
  intros Hs. revert n. induction Hs as [|x l Hl IH Hx]; intros [|n]; simpl;
    try constructor; [apply IH|].
  by apply Forall_take.
Qed.

Lemma rank_desc (k : Z) (l : list preview_node) :
  0 <= k -> StronglySorted (desc pv_sim_jobs) (rank k l).
Proof.
  intros Hk. unfold rank, slice_to.
  destruct (_ && _).
  - destruct (Z.ltb_spec k 0); [lia|].
    apply take_desc, sorted_reverse_desc.
  - apply sorted_reverse_desc.
Qed.

Lemma rank_length_le (k : Z) (l : list preview_node) :
  0 < k -> Z.of_nat (length (rank k l)) <= k.
Proof.
  intros Hk.
  destruct (Z.lt_ge_cases k (Z.of_nat (length l))) as [Hlt|Hge].
  - rewrite rank_capped by done. rewrite length_take. lia.
  - rewrite rank_within by lia. unfold order_node_preview.
    rewrite sorted_reverse_length. lia.
Qed.

Lemma rank_idempotent (k : Z) (l : list preview_node) :
  0 <= k -> rank k (rank k l) = rank k l.
Proof.
  intros Hk.
  assert (order_node_preview (rank k l) = rank k l) as Hfix
    by (apply sorted_reverse_fixed, rank_desc; done).
  destruct (Z.eq_dec k 0) as [->|Hne].
  - by rewrite (rank_uncapped (rank 0 l)).
  - rewrite (rank_within k (rank k l)); [done|lia|].
    apply rank_length_le. lia.
Qed.

(** C7.  The ranker is a stable sort by [sim_jobs], descending: its
    output is a permutation of its input, is descending, and keeps the
    input order among entries with equal [sim_jobs].  With a cap
    [maxnodes = k > 0] on a list of more than [k] entries the result is
    exactly the first [k] entries of that ordering; with [maxnodes = 0]
    all entries remain.  Ranking a ranked list changes nothing. *)
Theorem ranker_stable_sort_cap_idempotent (l : list preview_node) :
  (order_node_preview l ≡ₚ l /\
   StronglySorted (desc pv_sim_jobs) (order_node_preview l) /\
   forall j, with_key pv_sim_jobs j (order_node_preview l)
             = with_key pv_sim_jobs j l) /\
  (forall k, 0 < k -> k < Z.of_nat (length l) ->
     rank k l = take (Z.to_nat k) (order_node_preview l) /\
     Z.of_nat (length (rank k l)) = k) /\
  (rank 0 l = order_node_preview l /\ length (rank 0 l) = length l) /\
  order_node_preview (order_node_preview l) = order_node_preview l /\
  (forall k, 0 <= k -> rank k (rank k l) = rank k l).
Proof.
  repeat split.
  - apply sorted_reverse_perm.
  - apply sorted_reverse_desc.
  - intros j. apply sorted_reverse_stable.
  - by apply rank_capped.
  - rewrite rank_capped by done. rewrite length_take.
    unfold order_node_preview. rewrite sorted_reverse_length. lia.
  - unfold rank, order_node_preview. simpl. apply sorted_reverse_length.
  - apply sorted_reverse_idempotent.
  - intros k Hk. by apply rank_idempotent.
Qed.

(** ** Arithmetic of the evaluators *)

Lemma truediv_ok (a b : Q) : ~ b == 0 -> Py.truediv a b = Ok (a / b)%Q.
Proof.
  intros Hb. unfold Py.truediv.
  destruct (Qeq_bool b 0) eqn:E; [|done].
  by apply Qeq_bool_eq in E.
Qed.

Lemma truediv_zero (a b : Q) : b == 0 -> Py.truediv a b = Raise ZeroDivisionError.
Proof. intros Hb. unfold Py.truediv. by rewrite (Qeq_eq_bool _ _ Hb). Qed.


Lemma inject_Z_nonzero (n : Z) : n <> 0 -> ~ inject_Z n == 0.
Proof. intros Hn Heq. apply Hn. by apply (inject_Z_injective n 0). Qed.





Section EvaluatorFacts.
Context `{FloatText}.


Lemma percent_ok (a b : Q) : ~ b == 0 -> exists s, percent a b = Ok s.
Proof. intros Hb. unfold percent. rewrite truediv_ok by done. by eexists. Qed.

Lemma int_usage_ok (n cap : Z) : cap <> 0 -> exists s, int_usage n cap = Ok s.
Proof.
  intros Hc. unfold int_usage.
  destruct (percent_ok (inject_Z n) (inject_Z cap)) as [s ->];
    [by apply inject_Z_nonzero|]. by eexists.
Qed.

Lemma int_usage_zero (n : Z) : int_usage n 0 = Raise ZeroDivisionError.
Proof. done. Qed.

Lemma ram_usage_ok (amount_ram mem : Q) :
  ~ mem == 0 -> exists s, ram_usage_text amount_ram mem = Ok s.
Proof.
  intros Hm. unfold ram_usage_text.
  destruct (percent_ok amount_ram mem) as [s ->]; [done|]. by eexists.
Qed.

Lemma ram_usage_zero (amount_ram mem : Q) :
  mem == 0 -> ram_usage_text amount_ram mem = Raise ZeroDivisionError.
Proof.
  intros Hm. unfold ram_usage_text, percent. by rewrite truediv_zero.
Qed.


End EvaluatorFacts.

Section EvaluatorsOnZeroCapacity.
Context `{FloatText}.

(** A slot without CPU capacity: every evaluator divides by it, on both
    branches, before anything else. *)
Lemma check_dynamic_slots_zero_cpu (slot : slot) (name : string)
    (num_cpu : Z) (amount_ram job_duration : Q) (num_jobs : Z) :
  UtsnameNodename slot = Some name -> TotalSlotCpus slot = 0 ->
  check_dynamic_slots slot num_cpu amount_ram job_duration num_jobs
    = Raise ZeroDivisionError.
Proof.
  intros Hname Hcap. unfold check_dynamic_slots, slot_name.
  rewrite Hname, Hcap. cbn [rbind]. rewrite int_usage_zero.
  by destruct (_ && _).
Qed.

Lemma check_static_slots_zero_cpu (slot : slot) (name : string)
    (num_cores : Z) (amount_ram job_duration : Q) (num_jobs : Z) :
  UtsnameNodename slot = Some name -> TotalSlotCpus slot = 0 ->
  check_static_slots slot num_cores amount_ram job_duration num_jobs
    = Raise ZeroDivisionError.
Proof.
  intros Hname Hcap. unfold check_static_slots, slot_name.
  rewrite Hname, Hcap. cbn [rbind]. rewrite int_usage_zero.
  by destruct (_ && _).
Qed.

Lemma check_gpu_slots_zero_cpu (slot : slot) (name : string)
    (num_cores num_gpu : Z) (amount_ram job_duration : Q) (num_jobs : Z) :
  UtsnameNodename slot = Some name -> TotalSlotCpus slot = 0 ->
  check_gpu_slots slot num_cores num_gpu amount_ram job_duration num_jobs
    = Raise ZeroDivisionError.
Proof.
  intros Hname Hcap. unfold check_gpu_slots, slot_name.
  rewrite Hname, Hcap. cbn [rbind]. rewrite int_usage_zero.
  by destruct (_ && _ && _).
Qed.


(** The gpu evaluator on a tagged slot without GPUs, with non-zero CPU
    and RAM capacity: the slot is reported as not fitting, with the
    marker in place of a GPU usage. *)
Lemma check_gpu_slots_no_gpu (slot : slot) (name : string)
    (num_cores num_gpu : Z) (amount_ram job_duration : Q) (num_jobs : Z) :
  UtsnameNodename slot = Some name ->
  TotalSlotGPUs slot = 0 -> 1 <= num_gpu ->
  TotalSlotCpus slot <> 0 -> ~ TotalSlotMemory slot == 0 ->
  exists nd pn,
    check_gpu_slots slot num_cores num_gpu amount_ram job_duration num_jobs
      = Ok (nd, pn) /\
    pv_fits pn = "NO"%string /\
    pv_gpu_usage pn = "No GPU ressource!"%string /\
    pv_sim_jobs pn = 0 /\
    pv_wall_time_on_idle pn = PInt 0.
Proof.
  intros Hname Hgpus Hgpu Hcap Hmem.
  unfold check_gpu_slots, slot_name. rewrite Hname, Hgpus. cbn [rbind].
  destruct (Z.leb_spec num_gpu 0) as [|_]; [lia|].
  rewrite andb_false_r.
  destruct (int_usage_ok num_cores (TotalSlotCpus slot) Hcap) as [cu ->].
  destruct (ram_usage_ok amount_ram (TotalSlotMemory slot) Hmem) as [ru ->].
  cbn [rbind Z.eqb]. do 2 eexists. split; [reflexivity|]. done.
Qed.


End EvaluatorsOnZeroCapacity.

(** ** The evaluators at inputs of the specification *)

Section Scenarios.
Context `{FloatText}.

(** The dynamic scenario: capacity 32 cores and 500 GiB, request 4
    cores and 16 GiB. *)
Example dynamic_scenario :
  exists nd pn,
    check_dynamic_slots Sample.dynamic_32 4 16 0 1 = Ok (nd, pn) /\
    pv_fits pn = "YES"%string /\ pv_sim_jobs pn = 8.
Proof. do 2 eexists. split; [vm_compute; reflexivity|]. done. Qed.

(** The static scenario with 9 requested cores: the job does not fit. *)
Example static_scenario_too_large :
  exists nd pn,
    check_static_slots Sample.static_10x8 9 64 0 1 = Ok (nd, pn) /\
    pv_fits pn = "NO"%string /\ pv_sim_jobs pn = 0.
Proof. do 2 eexists. split; [vm_compute; reflexivity|]. done. Qed.

(** C1.  On the static scenario of the specification (10 slots of 8
    cores and 64 GiB, request 8 cores and 64 GiB) the job fits and the
    evaluator reports [sim_jobs = 8], the number of cores of the slot,
    where the slot has 10 instances. *)
Theorem static_scenario_reports_cores :
  exists nd pn,
    check_static_slots Sample.static_10x8 8 64 0 1 = Ok (nd, pn) /\
    pv_fits pn = "YES"%string /\
    pv_sim_jobs pn = 8 /\
    pv_sim_jobs pn = TotalSlotCpus Sample.static_10x8 /\
    TotalSlots Sample.static_10x8 = 10.
Proof. do 2 eexists. split; [vm_compute; reflexivity|]. done. Qed.

(** C2.  Each evaluator raises [ZeroDivisionError] on a slot with a
    capacity of zero: the dynamic one on a slot without cores, the
    static one on a slot without RAM, the gpu one on a slot without
    cores. *)
Theorem evaluators_raise_on_zero_capacity :
  TotalSlotCpus Sample.dynamic_no_cpu = 0 /\
  check_dynamic_slots Sample.dynamic_no_cpu 1 1 0 1 = Raise ZeroDivisionError /\
  TotalSlotMemory Sample.static_no_ram = 0%Q /\
  check_static_slots Sample.static_no_ram 1 1 0 1 = Raise ZeroDivisionError /\
  TotalSlotCpus Sample.gpu_no_cpu = 0 /\
  check_gpu_slots Sample.gpu_no_cpu 1 1 1 0 1 = Raise ZeroDivisionError.
Proof. repeat split. Qed.

(** C5.  On a dynamic slot without cores and a request of one core and
    16 GiB the capacity test is false, and the dynamic evaluator raises
    [ZeroDivisionError] where it should report [fits = NO] and
    [sim_jobs = 0]. *)
Theorem dynamic_zero_cores_raises :
  (1 <=? TotalSlotCpus Sample.dynamic_no_cpu) &&
    Qle_bool 16 (TotalSlotMemory Sample.dynamic_no_cpu) = false /\
  check_dynamic_slots Sample.dynamic_no_cpu 1 16 0 1
    = Raise ZeroDivisionError.
Proof. split; reflexivity. Qed.

(** C6.  On a gpu slot with neither GPUs nor cores and a request of one
    GPU the gpu evaluator raises [ZeroDivisionError]; the exception
    leaves [check_slots] and [prepare_checking], so the gpu slots that
    follow in the inventory are not evaluated and no table is printed. *)
Theorem gpu_zero_cores_aborts_run :
  TotalSlotGPUs Sample.gpu_no_cpu = 0 /\
  check_gpu_slots Sample.gpu_no_cpu 1 1 1 0 1 = Raise ZeroDivisionError /\
  (let '(r, w) :=
     check_slots [6%nat] [4%nat] [5; 2; 3]%nat 1 1 0 1 1 0 0 false
       Sample.filtered_degenerate in
   r = Raise ZeroDivisionError /\ console w = []) /\
  (let '(r, w) :=
     prepare_checking Sample.inventory_degenerate 1 1 (Some "1GB"%string)
       None 1 None 0 false Sample.start in
   r = Raise ZeroDivisionError /\ console w = []).
Proof. repeat split. Qed.

End Scenarios.

(** ** Storage units *)

Example ten_gigabytes :
  exists amount unit,
    split_number_unit (Some "10GB"%string) = Ok (amount, unit) /\
    calc_to_bin amount unit == 10.
Proof. do 2 eexists. split; [reflexivity|]. done. Qed.

Example hundred_megabytes :
  exists amount unit,
    split_number_unit (Some "100MB"%string) = Ok (amount, unit) /\
    calc_to_bin amount unit == 1 # 10.
Proof. do 2 eexists. split; [reflexivity|]. done. Qed.

Example empty_quantity :
  split_number_unit (Some ""%string) = Ok (0%Q, "GiB"%string) /\
  split_number_unit None = Ok (0%Q, "GiB"%string).
Proof. done. Qed.

(** The spellings [p], [pb] and [pib] of a prefix letter, in any letter
    case, follow the rule of the letter. *)
Lemma calc_to_bin_known_spelling (p : prefix) (number : Q) (unit : string) :
  Py.lower unit = prefix_letter p \/
  Py.lower unit = prefix_letter p +:+ "b" \/
  Py.lower unit = prefix_letter p +:+ "ib" ->
  calc_to_bin number unit = prefix_rule p number.
Proof.
  unfold calc_to_bin. intros [-> | [-> | ->]]; by destruct p.
Qed.

(** The spelling [pi] is in none of the tuples of [calc_to_bin]: the
    amount is returned as it is. *)
Lemma calc_to_bin_prefix_i (p : prefix) (number : Q) (unit : string) :
  Py.lower unit = prefix_letter p +:+ "i" ->
  calc_to_bin number unit = number.
Proof. unfold calc_to_bin. intros ->. by destruct p. Qed.

(** C3.  The quantity [5Ki] passes the check of the command line, its
    unit is [Ki], a spelling of the prefix letter [k] followed by [i];
    [calc_to_bin] returns the amount 5 unchanged, where the rule of [k]
    gives 5/10^6. *)
Theorem kibi_without_b_is_identity :
  validate_storage_size "5Ki" = true /\
  split_number_unit (Some "5Ki"%string) = Ok (5%Q, "Ki"%string) /\
  Py.lower "Ki" = prefix_letter Kilo +:+ "i" /\
  calc_to_bin 5 "Ki" = 5%Q /\
  Qeq_bool (calc_to_bin 5 "Ki") (prefix_rule Kilo 5) = false.
Proof. repeat split. Qed.

(** ** The slot inventory filter *)

Lemma SlotType_set_nodename (name : string) (s : slot) :
  SlotType (set_nodename name s) = SlotType s.
Proof. done. Qed.

Lemma set_nodename_twice (n1 n2 : string) (s : slot) :
  set_nodename n2 (set_nodename n1 s) = set_nodename n2 s.
Proof. done. Qed.

Lemma filter_node_nil (name slot_type : string) (res : list loc) (w : world) :
  filter_node name slot_type [] res w = (Ok res, w).
Proof. done. Qed.

Lemma filter_node_cons (name slot_type : string) (l : loc)
    (entries res : list loc) (w : world) :
  filter_node name slot_type (l :: entries) res w =
    if String.eqb (SlotType (heap w l)) slot_type
    then filter_node name slot_type entries (res ++ [l])
           {| heap := <[l := set_nodename name (heap w l)]> (heap w);
              console := console w |}
    else filter_node name slot_type entries res w.
Proof.
  cbn [filter_node]. unfold bind, get_heap.
  by destruct (String.eqb _ _).
Qed.

Lemma of_class_ext (h h' : loc -> slot) (slot_type : string)
    (entries : list loc) :
  (forall l, SlotType (h' l) = SlotType (h l)) ->
  of_class h' slot_type entries = of_class h slot_type entries.
Proof.
  intros Hty. unfold of_class. apply list_filter_iff. intros l.
  by rewrite Hty.
Qed.

(** One node: the matching entries are appended in order and receive the
    node's name; nothing else changes. *)
Lemma filter_node_spec (name slot_type : string) (entries : list loc) :
  forall (res : list loc) (w : world),
  exists w',
    filter_node name slot_type entries res w
      = (Ok (res ++ of_class (heap w) slot_type entries), w') /\
    console w' = console w /\
    forall l,
      (l ∉ of_class (heap w) slot_type entries -> heap w' l = heap w l) /\
      (l ∈ of_class (heap w) slot_type entries ->
       heap w' l = set_nodename name (heap w l)).
Proof.
  induction entries as [|l0 entries IH]; intros res w.
  - exists w. rewrite filter_node_nil, app_nil_r.
    split; [done|]. split; [done|]. intros l. split; [done|].
    by intros ?%elem_of_nil.
  - rewrite filter_node_cons. unfold of_class at 1 2 3.
    rewrite filter_cons. fold (of_class (heap w) slot_type entries).
    destruct (String.eqb_spec (SlotType (heap w l0)) slot_type) as [Hty|Hty].
    + rewrite decide_True by done.
      set (w1 := {| heap := <[l0 := set_nodename name (heap w l0)]> (heap w);
                    console := console w |}).
      destruct (IH (res ++ [l0]) w1) as (w' & Hrun & Hcon & Hheap).
      assert (forall l, SlotType (heap w1 l) = SlotType (heap w l)) as Hsame.
      { intros l. simpl. destruct (decide (l0 = l)) as [->|Hne].
        - by rewrite fn_lookup_insert.
        - by rewrite fn_lookup_insert_ne. }
      rewrite (of_class_ext _ _ _ _ Hsame) in Hrun, Hheap.
      exists w'. rewrite Hrun, <- app_assoc. split; [done|]. split; [done|].
      intros l. destruct (Hheap l) as [Hout Hin].
      destruct (decide (l ∈ of_class (heap w) slot_type entries)) as [Hl|Hl].
      * split; [intros Hn; exfalso; apply Hn; by right|]. intros _.
        rewrite (Hin Hl). simpl. destruct (decide (l0 = l)) as [->|Hne].
        -- by rewrite fn_lookup_insert.
        -- by rewrite fn_lookup_insert_ne.
      * rewrite (Hout Hl). simpl. destruct (decide (l0 = l)) as [->|Hne].
        -- rewrite fn_lookup_insert.
           split; [intros Hn; exfalso; apply Hn; by left|done].
        -- rewrite fn_lookup_insert_ne by done.
           split; [done|]. intros [?|?]%elem_of_cons; done.
    + rewrite decide_False by done.
      destruct (IH res w) as (w' & Hrun & Hcon & Hheap).
      exists w'. by rewrite Hrun.
Qed.

Lemma filter_nodes_spec (slot_type : string) (slots : list node) :
  forall (res : list loc) (w : world),
  exists w',
    filter_nodes slots slot_type res w
      = (Ok (res ++ of_class (heap w) slot_type (entries_of slots)), w') /\
    console w' = console w /\
    forall l,
      (l ∉ of_class (heap w) slot_type (entries_of slots) ->
       heap w' l = heap w l) /\
      (l ∈ of_class (heap w) slot_type (entries_of slots) ->
       exists n, n ∈ slots /\ l ∈ slot_size n /\
         heap w' l = set_nodename (node_UtsnameNodename n) (heap w l)).
Proof.
  induction slots as [|n slots IH]; intros res w.
  - exists w. cbn. rewrite app_nil_r.
    split; [done|]. split; [done|]. intros l. split; [done|].
    by intros ?%elem_of_nil.
  - cbn [filter_nodes]. unfold bind.
    destruct (filter_node_spec (node_UtsnameNodename n) slot_type
                (slot_size n) res w) as (w1 & -> & Hcon1 & Hheap1).
    destruct (IH (res ++ of_class (heap w) slot_type (slot_size n)) w1)
      as (w' & Hrun & Hcon & Hheap).
    assert (forall l, SlotType (heap w1 l) = SlotType (heap w l)) as Hsame.
    { intros l. destruct (Hheap1 l) as [Hout Hin].
      destruct (decide (l ∈ of_class (heap w) slot_type (slot_size n)))
        as [Hl|Hl]; [by rewrite (Hin Hl)|by rewrite (Hout Hl)]. }
    rewrite (of_class_ext _ _ _ _ Hsame) in Hrun, Hheap.
    assert (of_class (heap w) slot_type (entries_of (n :: slots))
            = of_class (heap w) slot_type (slot_size n)
              ++ of_class (heap w) slot_type (entries_of slots)) as ->.
    { unfold of_class, entries_of. cbn [map concat]. apply filter_app. }
    exists w'. rewrite Hrun, <- app_assoc.
    split; [done|]. split; [congruence|].
    intros l. destruct (Hheap l) as [Hout Hin], (Hheap1 l) as [Hout1 Hin1].
    rewrite elem_of_app.
    destruct (decide (l ∈ of_class (heap w) slot_type (entries_of slots)))
      as [Hl|Hl].
    + split; [intros Hn; exfalso; apply Hn; by right|]. intros _.
      destruct (Hin Hl) as (n' & Hn' & Hln' & Heq).
      exists n'. split; [by right|]. split; [done|]. rewrite Heq.
      destruct (decide (l ∈ of_class (heap w) slot_type (slot_size n)))
        as [Hl1|Hl1]; [by rewrite (Hin1 Hl1)|by rewrite (Hout1 Hl1)].
    + rewrite (Hout Hl).
      destruct (decide (l ∈ of_class (heap w) slot_type (slot_size n)))
        as [Hl1|Hl1].
      * split; [intros Hn; exfalso; apply Hn; by left|]. intros _.
        exists n. split; [by left|]. split; [|by apply Hin1].
        unfold of_class in Hl1. by apply list_elem_of_filter in Hl1 as [_ ?].
      * split; [intros _; by apply Hout1|]. intros [?|?]; done.
Qed.

(** C4, as amended.  [filter_slots] returns exactly the entries of the
    requested class, in inventory order, and prints nothing.  It writes
    the name of an owning node into each returned entry, in place; the
    other keys of these entries and all other entries are unchanged. *)
Theorem filter_slots_stable_and_tags_in_place (slots : list node)
    (slot_type : string) (w : world) :
  exists w',
    filter_slots slots slot_type w
      = (Ok (of_class (heap w) slot_type (entries_of slots)), w') /\
    console w' = console w /\
    forall l,
      (l ∉ of_class (heap w) slot_type (entries_of slots) ->
       heap w' l = heap w l) /\
      (l ∈ of_class (heap w) slot_type (entries_of slots) ->
       exists n, n ∈ slots /\ l ∈ slot_size n /\
         heap w' l = set_nodename (node_UtsnameNodename n) (heap w l)).
Proof. apply (filter_nodes_spec slot_type slots [] w). Qed.

(** C4, as stated, fails: after filtering the sample inventory for
    static slots the entry at location 0 carries the name of its node. *)
Lemma filter_slots_writes_inventory :
  ~ leaves_inventory Sample.inventory "static" Sample.start.
Proof. intros Hsame. specialize (Hsame 0%nat). discriminate Hsame. Qed.

(** ** The drivers *)

Section DriverFacts.
Context `{FloatText}.

(** A loop of [check_slots] appends one entry per slot to both views,
    in the order of the list. *)
Lemma check_each_spec (check : slot -> result (node_dict * preview_node))
    (h : loc -> slot) (nodes : list loc) :
  forall (acc r : preview_dict),
  check_each check nodes h acc = Ok r ->
  exists out,
    Forall2 (fun l x => check (h l) = Ok x) nodes out /\
    res_slots r = res_slots acc ++ out.*1 /\
    res_preview r = res_preview acc ++ out.*2.
Proof.
  induction nodes as [|l nodes IH]; intros acc r Hrun.
  - injection Hrun as <-. exists []. by rewrite !app_nil_r.
  - cbn [check_each] in Hrun.
    destruct (check (h l)) as [[nd pn]|e] eqn:Hl; [|done].
    cbn [rbind] in Hrun. apply IH in Hrun as (out & Hall & Hs & Hp).
    exists ((nd, pn) :: out). split; [by constructor|].
    cbn in Hs, Hp. rewrite Hs, Hp, <- !app_assoc. done.
Qed.


Lemma rank_elem (k : Z) (l : list preview_node) (x : preview_node) :
  x ∈ rank k l -> x ∈ l.
Proof.
  assert (forall n, x ∈ take n (order_node_preview l) -> x ∈ l) as Htake.
  { intros n Hx.
    pose proof (elem_of_sublist _ _ _ Hx (sublist_take _ n)) as Hx'.
    unfold order_node_preview in Hx'. by rewrite sorted_reverse_perm in Hx'. }
  unfold rank, slice_to. destruct (_ && _).
  - destruct (k <? 0); apply Htake.
  - intros Hx. unfold order_node_preview in Hx.
    by rewrite sorted_reverse_perm in Hx.
Qed.

Lemma check_dynamic_slots_type (s : slot) (num_cpu : Z) (ram dur : Q)
    (jobs : Z) (nd : node_dict) (pn : preview_node) :
  check_dynamic_slots s num_cpu ram dur jobs = Ok (nd, pn) ->
  pv_type pn = "dynamic"%string /\ nd_type nd = SlotType s.
Proof.
  unfold check_dynamic_slots. intros Hrun.
  repeat match type of Hrun with
         | rbind ?m _ = _ => destruct m as [?|?]; cbn [rbind] in Hrun
         | (let (_, _) := ?p in _) = _ => destruct p
         end; try done.
  by injection Hrun as <- <-.
Qed.

Lemma check_static_slots_type (s : slot) (num_cpu : Z) (ram dur : Q)
    (jobs : Z) (nd : node_dict) (pn : preview_node) :
  check_static_slots s num_cpu ram dur jobs = Ok (nd, pn) ->
  pv_type pn = "static"%string /\ nd_type nd = SlotType s.
Proof.
  unfold check_static_slots. intros Hrun.
  repeat match type of Hrun with
         | rbind ?m _ = _ => destruct m as [?|?]; cbn [rbind] in Hrun
         | (let (_, _) := ?p in _) = _ => destruct p
         end; try done.
  by injection Hrun as <- <-.
Qed.

Lemma check_gpu_slots_type (s : slot) (num_cpu num_gpu : Z) (ram dur : Q)
    (jobs : Z) (nd : node_dict) (pn : preview_node) :
  check_gpu_slots s num_cpu num_gpu ram dur jobs = Ok (nd, pn) ->
  pv_type pn = "gpu"%string /\ nd_type nd = SlotType s.
Proof.
  unfold check_gpu_slots. intros Hrun.
  repeat match type of Hrun with
         | rbind ?m _ = _ => destruct m as [?|?]; cbn [rbind] in Hrun
         | (let (_, _) := ?p in _) = _ => destruct p
         end; try done.
  by injection Hrun as <- <-.
Qed.

End DriverFacts.

Section DriverTheorems.
Context `{FloatText}.

(** [check_slots] as a function of the store and the console. *)
Lemma check_slots_run (static dynamic gpu : list loc) (num_cpu : Z)
    (amount_ram amount_disk : Q) (num_gpu num_jobs : Z) (job_duration : Q)
    (maxnodes : Z) (verbose : bool) (w : world) :
  check_slots static dynamic gpu num_cpu amount_ram amount_disk num_gpu
    num_jobs job_duration maxnodes verbose w =
  let greeted :=
    if verbose
    then console w ++ [InputTable num_cpu amount_ram amount_disk num_gpu
                         num_jobs job_duration maxnodes]
    else console w in
  let evaluated :=
    if negb (num_cpu =? 0) && (num_gpu =? 0) then
      let? r := check_each
                  (fun node => check_dynamic_slots node num_cpu amount_ram
                                 job_duration num_jobs)
                  dynamic (heap w) {| res_slots := []; res_preview := [] |} in
      let? r := check_each
                  (fun node => check_static_slots node num_cpu amount_ram
                                 job_duration num_jobs)
                  static (heap w) r in
      Ok (Some r)
    else if negb (num_cpu =? 0) && negb (num_gpu =? 0) then
      let? r := check_each
                  (fun node => check_gpu_slots node num_cpu num_gpu
                                 amount_ram job_duration num_jobs)
                  gpu (heap w) {| res_slots := []; res_preview := [] |} in
      Ok (Some r)
    else Ok None in
  match evaluated with
  | Raise e => (Raise e, {| heap := heap w; console := greeted |})
  | Ok None => (Ok None, {| heap := heap w; console := greeted |})
  | Ok (Some r) =>
      let res := {| res_slots := res_slots r;
                    res_preview := rank maxnodes (res_preview r) |} in
      if verbose && negb (forallb has_gpus_if_gpu (res_slots r))
      then (Raise (KeyError "gpus"), {| heap := heap w; console := greeted |})
      else
        (Ok (Some res),
         {| heap := heap w;
            console :=
              (greeted ++ if verbose then [SlotsTable (res_slots r)] else [])
              ++ [ResultTable (res_preview res) verbose] |})
  end.
Proof.
  unfold check_slots, bind, get_heap, lift, ret, pretty_print_input,
    pretty_print_slots, pretty_print_result, emit.
  destruct w as [h c], verbose; cbn [heap console];
    destruct (negb (num_cpu =? 0) && (num_gpu =? 0));
    [| destruct (negb (num_cpu =? 0) && negb (num_gpu =? 0)) | |
     destruct (negb (num_cpu =? 0) && negb (num_gpu =? 0)) ];
    repeat match goal with
           | |- context [check_each ?f ?l ?h ?a] =>
               destruct (check_each f l h a); cbn [rbind]
           end;
    cbn [res_slots andb negb];
    repeat match goal with
           | |- context [forallb ?f ?l] => destruct (forallb f l)
           end;
    cbn [negb heap console]; rewrite ?app_nil_r; reflexivity.
Qed.

Lemma node_dicts_of (check : slot -> result (node_dict * preview_node))
    (h : loc -> slot) (nodes : list loc) (out : list (node_dict * preview_node)) :
  (forall s nd pn, check s = Ok (nd, pn) -> nd_type nd = SlotType s) ->
  Forall2 (fun l x => check (h l) = Ok x) nodes out ->
  Forall2 (fun l nd => nd_type nd = SlotType (h l) /\
             exists pn, check (h l) = Ok (nd, pn)) nodes out.*1.
Proof.
  intros Hty. induction 1 as [|l [nd pn] ? ? Hl]; constructor; eauto.
Qed.

Lemma preview_of (check : slot -> result (node_dict * preview_node))
    (h : loc -> slot) (nodes : list loc) (out : list (node_dict * preview_node))
    (pn : preview_node) :
  Forall2 (fun l x => check (h l) = Ok x) nodes out ->
  pn ∈ out.*2 ->
  exists l nd, l ∈ nodes /\ check (h l) = Ok (nd, pn).
Proof.
  intros Hall ([nd pn'] & -> & Hin)%list_elem_of_fmap.
  apply list_elem_of_lookup in Hin as [i Hi].
  destruct (Forall2_lookup_r _ _ _ _ _ Hall Hi) as (l & Hl & Hrun).
  exists l, nd. split; [|done]. by eapply list_elem_of_lookup_2.
Qed.

(** C9.  With at least one core and one GPU requested, [check_slots]
    does not look at the static and dynamic lists: replacing them
    changes nothing, both views hold one entry per gpu slot and
    nothing else, and every preview entry is of type [gpu].  With no
    GPU requested it does not look at the gpu list, and the entries
    are those of the dynamic slots followed by the static ones. *)
Theorem check_slots_selects_class_by_gpu_request
    (static dynamic gpu : list loc) (num_cpu : Z) (amount_ram amount_disk : Q)
    (num_gpu num_jobs : Z) (job_duration : Q) (maxnodes : Z) (verbose : bool)
    (w : world) :
  1 <= num_cpu ->
  (1 <= num_gpu ->
   (forall static' dynamic',
      check_slots static' dynamic' gpu num_cpu amount_ram amount_disk
        num_gpu num_jobs job_duration maxnodes verbose w
      = check_slots static dynamic gpu num_cpu amount_ram amount_disk
          num_gpu num_jobs job_duration maxnodes verbose w) /\
   forall res w',
     check_slots static dynamic gpu num_cpu amount_ram amount_disk
       num_gpu num_jobs job_duration maxnodes verbose w = (Ok (Some res), w') ->
     Forall2 (fun l nd => nd_type nd = SlotType (heap w l) /\
                exists pn,
                  check_gpu_slots (heap w l) num_cpu num_gpu amount_ram
                    job_duration num_jobs = Ok (nd, pn))
       gpu (res_slots res) /\
     Forall (fun pn => pv_type pn = "gpu"%string /\
               exists l nd, l ∈ gpu /\
                 check_gpu_slots (heap w l) num_cpu num_gpu amount_ram
                   job_duration num_jobs = Ok (nd, pn))
       (res_preview res)) /\
  (num_gpu = 0 ->
   (forall gpu',
      check_slots static dynamic gpu' num_cpu amount_ram amount_disk
        num_gpu num_jobs job_duration maxnodes verbose w
      = check_slots static dynamic gpu num_cpu amount_ram amount_disk
          num_gpu num_jobs job_duration maxnodes verbose w) /\
   forall res w',
     check_slots static dynamic gpu num_cpu amount_ram amount_disk
       num_gpu num_jobs job_duration maxnodes verbose w = (Ok (Some res), w') ->
     exists dynamic_nds static_nds,
       res_slots res = dynamic_nds ++ static_nds /\
       Forall2 (fun l nd => nd_type nd = SlotType (heap w l) /\
                  exists pn,
                    check_dynamic_slots (heap w l) num_cpu amount_ram
                      job_duration num_jobs = Ok (nd, pn))
         dynamic dynamic_nds /\
       Forall2 (fun l nd => nd_type nd = SlotType (heap w l) /\
                  exists pn,
                    check_static_slots (heap w l) num_cpu amount_ram
                      job_duration num_jobs = Ok (nd, pn))
         static static_nds /\
       Forall (fun pn => pv_type pn <> "gpu"%string /\
                 exists l nd,
                   (l ∈ dynamic /\
                    check_dynamic_slots (heap w l) num_cpu amount_ram
                      job_duration num_jobs = Ok (nd, pn)) \/
                   (l ∈ static /\
                    check_static_slots (heap w l) num_cpu amount_ram
                      job_duration num_jobs = Ok (nd, pn)))
         (res_preview res)).
Proof.
  intros Hcpu.
  assert (negb (num_cpu =? 0) = true) as Ecpu
    by (destruct (Z.eqb_spec num_cpu 0); [lia|done]).
  split.
  - intros Hgpu.
    assert ((num_gpu =? 0) = false) as Egpu
      by (destruct (Z.eqb_spec num_gpu 0); [lia|done]).
    split.
    { intros static' dynamic'. rewrite !check_slots_run.
      by rewrite Ecpu, Egpu. }
    intros res w'. rewrite check_slots_run, Ecpu, Egpu. cbn [andb negb].
    destruct (check_each _ gpu (heap w) _) as [r|e] eqn:Hloop;
      cbn [rbind]; [|done].
    apply check_each_spec in Hloop as (out & Hall & Hs & Hp).
    cbn in Hs, Hp. cbv zeta.
    destruct (verbose && negb _); [done|]. intros [= <- _].
    cbn [res_slots res_preview]. rewrite Hs, Hp. split.
    + apply (node_dicts_of
               (fun s => check_gpu_slots s num_cpu num_gpu amount_ram
                           job_duration num_jobs)); [|done].
      intros s nd pn Hrun. by eapply check_gpu_slots_type.
    + apply Forall_forall. intros pn Hpn%rank_elem.
      destruct (preview_of
                  (fun s => check_gpu_slots s num_cpu num_gpu amount_ram
                              job_duration num_jobs) _ _ _ _ Hall Hpn)
        as (l & nd & Hl & Hrun).
      split; [by eapply check_gpu_slots_type|eauto].
  - intros ->. split.
    { intros gpu'. rewrite !check_slots_run. by rewrite Ecpu. }
    intros res w'. rewrite check_slots_run, Ecpu. cbn [andb negb Z.eqb].
    destruct (check_each _ dynamic (heap w) _) as [r1|e] eqn:Hloop1;
      cbn [rbind]; [|done].
    destruct (check_each _ static (heap w) r1) as [r|e] eqn:Hloop2;
      cbn [rbind]; [|done].
    apply check_each_spec in Hloop1 as (out1 & Hall1 & Hs1 & Hp1).
    apply check_each_spec in Hloop2 as (out2 & Hall2 & Hs2 & Hp2).
    cbn in Hs1, Hp1. rewrite Hs1 in Hs2. rewrite Hp1 in Hp2.
    cbv zeta. destruct (verbose && negb _); [done|]. intros [= <- _].
    cbn [res_slots res_preview]. rewrite Hs2, Hp2.
    exists (out1.*1), (out2.*1). split; [done|].
    split.
    { apply (node_dicts_of
               (fun s => check_dynamic_slots s num_cpu amount_ram
                           job_duration num_jobs)); [|done].
      intros s nd pn Hrun. by eapply check_dynamic_slots_type. }
    split.
    { apply (node_dicts_of
               (fun s => check_static_slots s num_cpu amount_ram
                           job_duration num_jobs)); [|done].
      intros s nd pn Hrun. by eapply check_static_slots_type. }
    apply Forall_forall. intros pn Hpn%rank_elem.
    apply elem_of_app in Hpn as [Hpn|Hpn].
    + destruct (preview_of
                  (fun s => check_dynamic_slots s num_cpu amount_ram
                              job_duration num_jobs) _ _ _ _ Hall1 Hpn)
        as (l & nd & Hl & Hrun).
      destruct (check_dynamic_slots_type _ _ _ _ _ _ _ Hrun) as [Hty _].
      rewrite Hty. split; [done|]. exists l, nd. by left.
    + destruct (preview_of
                  (fun s => check_static_slots s num_cpu amount_ram
                              job_duration num_jobs) _ _ _ _ Hall2 Hpn)
        as (l & nd & Hl & Hrun).
      destruct (check_static_slots_type _ _ _ _ _ _ _ Hrun) as [Hty _].
      rewrite Hty. split; [done|]. exists l, nd. by right.
Qed.

(** [prepare_checking] after its three calls of [filter_slots]: the
    store [w3] and the three lists depend on the inventory only. *)
Lemma prepare_checking_run (slot_config : list node) (w : world) :
  exists w3 static_slts dynamic_slts gpu_slts,
    console w3 = console w /\
    forall (cpu gpu : Z) (ram disk : option string) (jobs : Z)
           (job_duration : option string) (maxnodes : Z) (verbose : bool),
      prepare_checking slot_config cpu gpu ram disk jobs job_duration
        maxnodes verbose w =
      match split_number_unit ram with
      | Raise e => (Raise e, w3)
      | Ok (ram, ram_unit) =>
          match split_number_unit disk with
          | Raise e => (Raise e, w3)
          | Ok (disk, disk_unit) =>
              match split_duration_unit job_duration with
              | Raise e => (Raise e, w3)
              | Ok (job_duration, duration_unit) =>
                  if cpu =? 0 then (Ok false, w3)
                  else if Qeq_bool (calc_to_bin ram ram_unit) 0
                  then (Ok false, w3)
                  else
                    match
                      check_slots static_slts dynamic_slts gpu_slts cpu
                        (calc_to_bin ram ram_unit)
                        (calc_to_bin disk disk_unit) gpu jobs
                        (calc_to_min job_duration duration_unit)
                        maxnodes verbose w3
                    with
                    | (Ok _, w') => (Ok true, w')
                    | (Raise e, w') => (Raise e, w')
                    end
              end
          end
      end.
Proof.
  destruct (filter_nodes_spec "static" slot_config [] w)
    as (w1 & Hrun1 & Hcon1 & _).
  destruct (filter_nodes_spec "dynamic" slot_config [] w1)
    as (w2 & Hrun2 & Hcon2 & _).
  destruct (filter_nodes_spec "gpu" slot_config [] w2)
    as (w3 & Hrun3 & Hcon3 & _).
  cbn [app] in Hrun1, Hrun2, Hrun3.
  exists w3. do 3 eexists. split; [congruence|]. intros.
  unfold prepare_checking, bind, filter_slots.
  rewrite Hrun1, Hrun2, Hrun3. unfold lift.
  destruct (split_number_unit ram) as [[r ru]|e]; [|done].
  destruct (split_number_unit disk) as [[d du]|e]; [|done].
  destruct (split_duration_unit job_duration) as [[t tu]|e]; [|done].
  destruct (cpu =? 0); [done|].
  destruct (Qeq_bool (calc_to_bin r ru) 0); [done|].
  reflexivity.
Qed.

(** C8.  A request without cores, or whose RAM amount is zero after
    normalisation, ends [prepare_checking] with [False] for every
    inventory, whatever its slots are; nothing is printed: no table
    and, the root logger being at [ERROR], no log record. *)
Theorem prepare_checking_aborts_without_cpu_or_ram
    (slot_config : list node) (cpu gpu : Z) (ram disk : option string)
    (jobs : Z) (job_duration : option string) (maxnodes : Z) (verbose : bool)
    (w : world) (ram_amount : Q) (ram_unit : string) :
  split_number_unit ram = Ok (ram_amount, ram_unit) ->
  (exists d, split_number_unit disk = Ok d) ->
  (exists t, split_duration_unit job_duration = Ok t) ->
  cpu = 0 \/ calc_to_bin ram_amount ram_unit == 0 ->
  exists w',
    prepare_checking slot_config cpu gpu ram disk jobs job_duration
      maxnodes verbose w = (Ok false, w') /\
    console w' = console w.
Proof.
  intros Hram [[d du] Hdisk] [[t tu] Hdur] Hzero.
  destruct (prepare_checking_run slot_config w)
    as (w3 & st & dy & gp & Hcon & Hrun).
  exists w3. split; [|done].
  rewrite Hrun, Hram, Hdisk, Hdur.
  destruct Hzero as [-> | Hzero]; [done|].
  rewrite (Qeq_eq_bool _ _ Hzero). by destruct (cpu =? 0).
Qed.

Lemma check_slots_disk (static dynamic gpu : list loc) (num_cpu : Z)
    (amount_ram disk1 disk2 : Q) (num_gpu num_jobs : Z) (job_duration : Q)
    (maxnodes : Z) (verbose : bool) (w : world) :
  let run1 := check_slots static dynamic gpu num_cpu amount_ram disk1
                num_gpu num_jobs job_duration maxnodes verbose w in
  let run2 := check_slots static dynamic gpu num_cpu amount_ram disk2
                num_gpu num_jobs job_duration maxnodes verbose w in
  run1.1 = run2.1 /\
  heap run1.2 = heap run2.2 /\
  forget_disk <$> console run1.2 = forget_disk <$> console run2.2.
Proof.
  cbv zeta. rewrite !check_slots_run. cbv zeta.
  destruct (if negb (num_cpu =? 0) && (num_gpu =? 0) then _ else _)
    as [[r|]|e];
    destruct verbose; cbn [andb];
    try destruct (negb (forallb has_gpus_if_gpu (res_slots r)));
    cbn [fst snd heap console]; rewrite ?fmap_app; done.
Qed.

(** C10.  Two runs that differ in the requested disk amount only give
    the same result: [check_slots] returns the same dictionary (the
    same [fits], [sim_jobs] and [wall_time_on_idle] in every preview
    entry) or raises the same exception, leaves the same store and
    prints the same tables up to the disk column of the input table;
    so does [prepare_checking] for two disk quantities that parse. *)
Theorem disk_amount_does_not_influence_preview
    (static dynamic gpu_slots : list loc) (slot_config : list node)
    (cpu : Z) (amount_ram disk1 disk2 : Q) (gpu jobs : Z) (duration : Q)
    (ram disk_text1 disk_text2 job_duration : option string)
    (maxnodes : Z) (verbose : bool) (w : world) :
  (let run1 := check_slots static dynamic gpu_slots cpu amount_ram disk1
                 gpu jobs duration maxnodes verbose w in
   let run2 := check_slots static dynamic gpu_slots cpu amount_ram disk2
                 gpu jobs duration maxnodes verbose w in
   run1.1 = run2.1 /\
   heap run1.2 = heap run2.2 /\
   forget_disk <$> console run1.2 = forget_disk <$> console run2.2) /\
  ((exists d, split_number_unit disk_text1 = Ok d) ->
   (exists d, split_number_unit disk_text2 = Ok d) ->
   let run1 := prepare_checking slot_config cpu gpu ram disk_text1 jobs
                 job_duration maxnodes verbose w in
   let run2 := prepare_checking slot_config cpu gpu ram disk_text2 jobs
                 job_duration maxnodes verbose w in
   run1.1 = run2.1 /\
   heap run1.2 = heap run2.2 /\
   forget_disk <$> console run1.2 = forget_disk <$> console run2.2).
Proof.
  split; [apply check_slots_disk|].
  intros [[d1 du1] Hd1] [[d2 du2] Hd2]. cbv zeta.
  destruct (prepare_checking_run slot_config w)
    as (w3 & st & dy & gp & Hcon & Hrun).
  rewrite !Hrun, Hd1, Hd2.
  destruct (split_number_unit ram) as [[r ru]|e]; [|done].
  destruct (split_duration_unit job_duration) as [[t tu]|e]; [|done].
  destruct (cpu =? 0); [done|].
  destruct (Qeq_bool (calc_to_bin r ru) 0); [done|].
  destruct (check_slots_disk st dy gp cpu (calc_to_bin r ru)
              (calc_to_bin d1 du1) (calc_to_bin d2 du2) gpu jobs
              (calc_to_min t tu) maxnodes verbose w3) as (Hres & Hheap & Hprint).
  cbv zeta in Hres, Hheap, Hprint.
  destruct (check_slots st dy gp cpu _ (calc_to_bin d1 du1) _ _ _ _ _ _)
    as [[r1|e1] w1'],
    (check_slots st dy gp cpu _ (calc_to_bin d2 du2) _ _ _ _ _ _)
    as [[r2|e2] w2'];
    cbn [fst snd] in *; try done.
  by injection Hres as ->.
Qed.

End DriverTheorems.

(** ** The theorems on the sample inventory *)

(** The cap on five entries with [maxnodes = 2]. *)
Lemma ranker_on_sample :
  rank 2 Sample.previews = take 2 (order_node_preview Sample.previews) /\
  Z.of_nat (length (rank 2 Sample.previews)) = 2.
Proof.
  destruct (ranker_stable_sort_cap_idempotent Sample.previews)
    as (_ & Hcap & _).
  apply Hcap; simpl; lia.
Defined.

(** Filtering the sample inventory for gpu slots: the entries 2 and 3
    are returned and tagged, the static entry 0 is untouched. *)
Lemma filter_slots_on_sample :
  exists w',
    filter_slots Sample.inventory "gpu" Sample.start = (Ok [2; 3]%nat, w') /\
    heap w' 0%nat = Sample.entries 0%nat /\
    exists n, n ∈ Sample.inventory /\ 2%nat ∈ slot_size n /\
      heap w' 2%nat
      = set_nodename (node_UtsnameNodename n) (Sample.entries 2%nat).
Proof.
  destruct (filter_slots_stable_and_tags_in_place Sample.inventory "gpu"
              Sample.start) as (w' & Hrun & _ & Hheap).
  exists w'. split; [exact Hrun|]. split.
  - apply (Hheap 0%nat). vm_compute. intros Hin.
    apply elem_of_cons in Hin as [Hin|Hin]; [discriminate Hin|].
    apply elem_of_cons in Hin as [Hin|Hin]; [discriminate Hin|].
    by apply elem_of_nil in Hin.
  - apply (Hheap 2%nat). vm_compute. left.
Defined.

(** Four cores and [0GB] of RAM on the degenerate inventory. *)
Lemma abort_on_sample :
  exists w',
    prepare_checking (H := fraction_text) Sample.inventory_degenerate 4 0
      (Some "0GB"%string) None 1 None 0 true Sample.start = (Ok false, w') /\
    console w' = console Sample.start.
Proof.
  apply (prepare_checking_aborts_without_cpu_or_ram (H := fraction_text)
           Sample.inventory_degenerate 4 0 (Some "0GB"%string) None 1 None 0
           true Sample.start 0 "GB").
  - reflexivity.
  - eexists. reflexivity.
  - eexists. reflexivity.
  - right. reflexivity.
Defined.

(** One core and one GPU: the static and dynamic lists do not matter. *)
Lemma gpu_request_on_sample :
  check_slots (H := fraction_text) [] [] [2; 3]%nat 1 4 0 1 1 0 0 false
    Sample.filtered_healthy
  = check_slots (H := fraction_text) [0%nat] [1%nat] [2; 3]%nat 1 4 0 1 1 0 0
      false Sample.filtered_healthy.
Proof.
  destruct (check_slots_selects_class_by_gpu_request (H := fraction_text)
              [0%nat] [1%nat] [2; 3]%nat 1 4 0 1 1 0 0 false
              Sample.filtered_healthy) as [Hgpu _]; [lia|].
  destruct Hgpu as [Hsame _]; [lia|].
  apply Hsame.
Defined.

(** [1GB] against [500MB] of disk on the sample inventory. *)
Lemma disk_on_sample :
  (prepare_checking (H := fraction_text) Sample.inventory 4 0
     (Some "16GB"%string) (Some "1GB"%string) 10 (Some "30m"%string) 0 true
     Sample.start).1
  = (prepare_checking (H := fraction_text) Sample.inventory 4 0
       (Some "16GB"%string) (Some "500MB"%string) 10 (Some "30m"%string) 0 true
       Sample.start).1.
Proof.
  destruct (disk_amount_does_not_influence_preview (H := fraction_text)
              [] [] [] Sample.inventory 4 0 0 0 0 10 0
              (Some "16GB"%string) (Some "1GB"%string) (Some "500MB"%string)
              (Some "30m"%string) 0 true Sample.start) as [_ Hrun].
  destruct Hrun as (Hres & _).
  - eexists. reflexivity.
  - eexists. reflexivity.
  - exact Hres.
Defined.

(** * Further properties of the engine *)

(** ** Normalisation is a positive scaling *)







(** ** How many jobs a slot takes *)




Section Concurrency.
Context `{FloatText}.




End Concurrency.

(** ** Splitting a quantity *)

Module SplitFacts.
Import Regex.

Lemma span_digits_app (s : list ascii) :
  forall ds rest, span_digits s = (ds, rest) ->
    s = ds ++ rest /\ forallb is_digit ds = true /\
    match rest with [] => True | c :: _ => is_digit c = false end.
Proof.
  induction s as [|c s IH]; intros ds rest Hspan; cbn in Hspan.
  - by injection Hspan as <- <-.
  - destruct (is_digit c) eqn:Hc.
    + destruct (span_digits s) as [ds' rest'].
      injection Hspan as <- <-.
      destruct (IH ds' rest' eq_refl) as (-> & Hds & Hrest).
      cbn. by rewrite Hc.
    + by injection Hspan as <- <-.
Qed.

Lemma span_digits_digits (ds u : list ascii) :
  forallb is_digit ds = true ->
  match u with [] => True | c :: _ => is_digit c = false end ->
  span_digits (ds ++ u) = (ds, u).
Proof.
  intros Hds Hu. induction ds as [|d ds IH]; cbn.
  - destruct u as [|c u]; [done|]. cbn. by rewrite Hu.
  - cbn in Hds. apply andb_prop in Hds as [-> Hds]. by rewrite IH.
Qed.

Lemma span_digits_none (s : list ascii) :
  forallb (fun c => negb (is_digit c)) s = true -> span_digits s = ([], s).
Proof.
  destruct s as [|c s]; [done|]. cbn. intros [Hc _]%andb_prop.
  by destruct (is_digit c).
Qed.

Lemma match_number_none (s : list ascii) :
  forallb (fun c => negb (is_digit c)) s = true -> match_number s = None.
Proof.
  intros Hs. unfold match_number. rewrite span_digits_none by done.
  destruct s as [|c s]; [done|].
  cbn in Hs. apply andb_prop in Hs as [_ Hs].
  destruct (is_dot c); [|done]. by rewrite span_digits_none.
Qed.

(** A digit at the head always starts a match. *)
Lemma match_number_digit (c : ascii) (s : list ascii) :
  is_digit c = true -> exists m, match_number (c :: s) = Some m.
Proof.
  intros Hc. unfold match_number. cbn [span_digits]. rewrite Hc.
  destruct (span_digits s) as [ds rest].
  destruct rest as [|c' rest']; [by eexists|].
  destruct (is_dot c'); [|by eexists].
  destruct (span_digits rest') as [[|d fs] ?]; by eexists.
Qed.

(** The shape of a match: digits, or digits, a dot and digits. *)
Lemma match_number_shape (s m : list ascii) :
  match_number s = Some m ->
  m <> [] /\
  ((forallb is_digit m = true) \/
   exists ds fs, m = ds ++ "."%char :: fs /\ fs <> [] /\
     forallb is_digit ds = true /\ forallb is_digit fs = true).
Proof.
  unfold match_number. destruct (span_digits s) as [ds rest] eqn:Hspan.
  apply span_digits_app in Hspan as (_ & Hds & _).
  assert (forall m, match ds with [] => None | _ :: _ => Some ds end = Some m ->
            m <> [] /\ forallb is_digit m = true) as Hplain.
  { intros m'. destruct ds; [done|]. by intros [= <-]. }
  destruct rest as [|c rest']; [intros Hm; destruct (Hplain _ Hm); auto|].
  destruct (is_dot c) eqn:Hdot;
    [|intros Hm; destruct (Hplain _ Hm); auto].
  destruct (span_digits rest') as [[|d fs] rest''] eqn:Hspan';
    [intros Hm; destruct (Hplain _ Hm); auto|].
  apply span_digits_app in Hspan' as (_ & Hfs & _).
  intros [= <-]. split; [by destruct ds|]. right.
  apply Ascii.eqb_eq in Hdot as ->. by exists ds, (d :: fs).
Qed.

Lemma split_go_nonempty (s : list ascii) :
  forall skip pre, split_go skip pre s <> [].
Proof.
  induction s as [|c s IH]; intros skip pre; cbn [split_go]; [done|].
  destruct skip; [|apply IH]. destruct (match_number (c :: s)); [done|apply IH].
Qed.


(** Text without a digit is returned in one piece. *)
Lemma split_go_no_digit (s : list ascii) :
  forallb (fun c => negb (is_digit c)) s = true ->
  forall pre, split_go 0 pre s = [text (pre ++ s)].
Proof.
  induction s as [|c s IH]; intros Hs pre.
  - cbn. by rewrite app_nil_r.
  - cbn [split_go]. rewrite match_number_none by done.
    cbn in Hs. apply andb_prop in Hs as [_ Hs].
    rewrite IH by done. by rewrite <- app_assoc.
Qed.

(** Text with a digit gives at least three pieces, the second of which
    is a match. *)
Lemma split_go_digit (s : list ascii) :
  existsb is_digit s = true ->
  forall pre, exists before m s' rest,
    split_go 0 pre s = text before :: text m :: rest /\
    rest <> [] /\ match_number s' = Some m.
Proof.
  induction s as [|c s IH]; intros Hs pre; [done|].
  cbn [split_go]. destruct (match_number (c :: s)) as [m|] eqn:Hm.
  - exists pre, m, (c :: s), (split_go (length m - 1) [] s).
    split; [done|]. split; [apply split_go_nonempty|done].
  - cbn in Hs. destruct (is_digit c) eqn:Hc.
    + destruct (match_number_digit c s Hc) as [m' Hm']. congruence.
    + cbn in Hs. apply (IH Hs).
Qed.

End SplitFacts.

Module QuantityFacts.
Import Regex SplitFacts.


Lemma digit_is_no_space (c : ascii) :
  is_digit c = true -> Ascii.eqb c " "%char = false.
Proof.
  intros Hc. destruct (Ascii.eqb_spec c " "%char) as [->|]; [|done].
  discriminate Hc.
Qed.

Lemma remove_spaces_chars (s : string) :
  list_ascii_of_string (remove_spaces s)
  = filter (fun c => Ascii.eqb c " "%char = false) (list_ascii_of_string s).
Proof.
  induction s as [|c s IH]; [done|]. cbn [remove_spaces list_ascii_of_string].
  rewrite filter_cons. destruct (Ascii.eqb c " "%char) eqn:Hc.
  - by rewrite decide_False.
  - rewrite decide_True by done. cbn. by rewrite IH.
Qed.


Lemma has_digit_remove_spaces (s : string) :
  has_digit (remove_spaces s) = has_digit s.
Proof.
  unfold has_digit. induction s as [|c s IH]; [done|].
  cbn [remove_spaces list_ascii_of_string existsb].
  destruct (Ascii.eqb c " "%char) eqn:Hc.
  - rewrite IH. destruct (is_digit c) eqn:Hd; [|done].
    by rewrite (digit_is_no_space c Hd) in Hc.
  - cbn. by rewrite IH.
Qed.

Lemma no_digit_forallb (s : list ascii) :
  existsb is_digit s = false ->
  forallb (fun c => negb (is_digit c)) s = true.
Proof.
  induction s as [|c s IH]; [done|]. cbn.
  intros [-> Hs]%orb_false_elim. by rewrite IH.
Qed.

(** The pieces of a non-empty text without a digit, and of one with. *)
Lemma split_number_no_digit (s : string) :
  has_digit s = false ->
  Regex.split_number (remove_spaces s) = [remove_spaces s].
Proof.
  intros Hs. rewrite <- has_digit_remove_spaces in Hs.
  unfold split_number. rewrite split_go_no_digit by by apply no_digit_forallb.
  cbn. unfold text. by rewrite string_of_list_ascii_of_string.
Qed.

Lemma split_number_digit (s : string) :
  has_digit s = true ->
  exists before m s' rest,
    Regex.split_number (remove_spaces s) = text before :: text m :: rest /\
    rest <> [] /\ match_number s' = Some m.
Proof.
  intros Hs. rewrite <- has_digit_remove_spaces in Hs.
  apply (split_go_digit _ Hs []).
Qed.

Lemma digit_val_range (c : ascii) : is_digit c = true -> 0 <= Float.digit_val c <= 9.
Proof.
  unfold is_digit, Float.digit_val. intros [H1 H2]%andb_prop.
  apply N.leb_le in H1, H2. lia.
Qed.

Lemma fold_digits_nonneg (ds : list ascii) :
  forall acc, 0 <= acc -> forallb is_digit ds = true ->
  0 <= fold_left (fun acc c => 10 * acc + Float.digit_val c) ds acc.
Proof.
  induction ds as [|d ds IH]; intros acc Hacc Hds; [done|].
  cbn in Hds |- *. apply andb_prop in Hds as [Hd Hds].
  pose proof (digit_val_range d Hd). apply IH; [lia|done].
Qed.

Lemma digits_val_nonneg (ds : list ascii) :
  forallb is_digit ds = true -> 0 <= Float.digits_val ds.
Proof. by apply fold_digits_nonneg. Qed.

Lemma of_chars_digits (ds : list ascii) :
  forallb is_digit ds = true ->
  Float.of_chars ds = inject_Z (Float.digits_val ds).
Proof.
  intros Hds. unfold Float.of_chars.
  rewrite <- (app_nil_r ds) at 1. by rewrite span_digits_digits.
Qed.

(** The number read from a match is not negative. *)
Lemma of_chars_match_nonneg (s m : list ascii) :
  match_number s = Some m -> (0 <= Float.of_chars m)%Q.
Proof.
  intros [_ [Hm|(ds & fs & -> & _ & Hds & Hfs)]]%match_number_shape.
  - rewrite of_chars_digits by done.
    change 0%Q with (inject_Z 0). rewrite <- Zle_Qle.
    by apply digits_val_nonneg.
  - unfold Float.of_chars. rewrite span_digits_digits by done.
    pose proof (digits_val_nonneg ds Hds) as H1.
    pose proof (digits_val_nonneg fs Hfs) as H2.
    apply (Qplus_le_compat 0 _ 0 _).
    + change 0%Q with (inject_Z 0). by rewrite <- Zle_Qle.
    + apply Qle_shift_div_l.
      * change 0%Q with (inject_Z 0). rewrite <- Zlt_Qlt.
        apply Z.pow_pos_nonneg; lia.
      * rewrite Qmult_0_l. change 0%Q with (inject_Z 0).
        by rewrite <- Zle_Qle.
Qed.

Lemma of_string_text (m : list ascii) :
  Float.of_string (text m) = Float.of_chars m.
Proof.
  unfold Float.of_string, text. by rewrite list_ascii_of_string_of_list_ascii.
Qed.

End QuantityFacts.


(** A non-empty text without a digit makes both splitting functions
    raise [IndexError]; a text with a digit is always split, into a
    number that is not negative and a unit that is not empty. *)
Theorem split_raises_without_digit (user_input : string) :
  user_input <> ""%string ->
  (has_digit user_input = false ->
   split_number_unit (Some user_input) = Raise IndexError /\
   split_duration_unit (Some user_input) = Raise IndexError) /\
  (has_digit user_input = true ->
   (exists amount unit,
      split_number_unit (Some user_input) = Ok (amount, unit) /\
      (0 <= amount)%Q /\ unit <> ""%string) /\
   (exists amount unit,
      split_duration_unit (Some user_input) = Ok (amount, unit) /\
      (0 <= amount)%Q /\ unit <> ""%string)).
Proof.
  intros Hne. unfold split_number_unit, split_duration_unit.
  destruct user_input as [|c rest] eqn:Etext; [done|]. rewrite <- Etext.
  clear Hne Etext c rest. split.
  - intros Hs. by rewrite QuantityFacts.split_number_no_digit.
  - intros Hs.
    destruct (QuantityFacts.split_number_digit _ Hs)
      as (before & m & s' & rest & -> & Hrest & Hm).
    destruct rest as [|s2 rest]; [done|].
    cbn [Py.index rbind lookup list_lookup].
    rewrite QuantityFacts.of_string_text.
    pose proof (QuantityFacts.of_chars_match_nonneg _ _ Hm) as Hpos.
    split; do 2 eexists; (split; [reflexivity|]); (split; [done|]);
      by destruct (String.eqb_spec s2 "").
Qed.

(** ** Sizes of the two views *)

Lemma rank_length (k : Z) (l : list preview_node) :
  Z.of_nat (length (rank k l)) =
    if k =? 0 then Z.of_nat (length l)
    else if k <? 0 then Z.max 0 (Z.of_nat (length l) + k)
    else Z.min k (Z.of_nat (length l)).
Proof.
  unfold rank, slice_to, order_node_preview.
  rewrite sorted_reverse_length.
  destruct (Z.eqb_spec k 0) as [->|Hk]; cbn [negb andb];
    [apply inj_eq, sorted_reverse_length|].
  destruct (Z.ltb_spec k (Z.of_nat (length l))) as [Hlt|Hge];
    destruct (Z.ltb_spec k 0) as [Hneg|Hpos];
    rewrite ?length_take, sorted_reverse_length; lia.
Qed.

Section ViewSizes.
Context `{FloatText}.

(** When [check_slots] returns its dictionary, the capacity view has one
    row per evaluated slot whatever the node cap is, and the preview has
    all of them for [maxnodes = 0], the first [maxnodes] of them for a
    positive cap, and all but the last [-maxnodes] for a negative one. *)
Theorem check_slots_view_sizes (static dynamic gpu : list loc) (num_cpu : Z)
    (amount_ram amount_disk : Q) (num_gpu num_jobs : Z) (job_duration : Q)
    (maxnodes : Z) (verbose : bool) (w w' : world) (res : preview_dict) :
  check_slots static dynamic gpu num_cpu amount_ram amount_disk num_gpu
    num_jobs job_duration maxnodes verbose w = (Ok (Some res), w') ->
  let evaluated :=
    if num_gpu =? 0 then (length dynamic + length static)%nat
    else length gpu in
  num_cpu <> 0 /\
  length (res_slots res) = evaluated /\
  Z.of_nat (length (res_preview res)) =
    if maxnodes =? 0 then Z.of_nat evaluated
    else if maxnodes <? 0 then Z.max 0 (Z.of_nat evaluated + maxnodes)
    else Z.min maxnodes (Z.of_nat evaluated).
Proof.
  rewrite check_slots_run. cbv zeta.
  destruct (Z.eqb_spec num_cpu 0) as [Hcpu|Hcpu]; cbn [negb andb]; [done|].
  destruct (num_gpu =? 0); cbn [negb].
  - destruct (check_each _ dynamic (heap w) _) as [r1|e] eqn:Hloop1;
      cbn [rbind]; [|done].
    destruct (check_each _ static (heap w) r1) as [r|e] eqn:Hloop2;
      cbn [rbind]; [|done].
    apply check_each_spec in Hloop1 as (out1 & Hall1 & Hs1 & Hp1).
    apply check_each_spec in Hloop2 as (out2 & Hall2 & Hs2 & Hp2).
    apply Forall2_length in Hall1, Hall2.
    cbn in Hs1, Hp1. rewrite Hs1 in Hs2. rewrite Hp1 in Hp2.
    destruct (verbose && negb _); [done|]. intros [= <- _].
    cbn [res_slots res_preview]. split; [done|].
    rewrite rank_length, Hs2, Hp2, !length_app, !length_fmap.
    by rewrite <- Hall1, <- Hall2.
  - destruct (check_each _ gpu (heap w) _) as [r|e] eqn:Hloop;
      cbn [rbind]; [|done].
    apply check_each_spec in Hloop as (out & Hall & Hs & Hp).
    apply Forall2_length in Hall. cbn in Hs, Hp.
    destruct (verbose && negb _); [done|]. intros [= <- _].
    cbn [res_slots res_preview]. split; [done|].
    rewrite rank_length, Hs, Hp, !length_fmap. by rewrite <- Hall.
Qed.


End ViewSizes.

(** ** Which exceptions the engine raises *)





Section Exceptions.
Context `{FloatText}.




(** An entry without a node name makes every evaluator raise [KeyError]
    before it reads a capacity. *)
Lemma evaluators_untagged (slot : slot) (num_cores num_gpu : Z)
    (amount_ram job_duration : Q) (num_jobs : Z) :
  UtsnameNodename slot = None ->
  check_dynamic_slots slot num_cores amount_ram job_duration num_jobs
    = Raise (KeyError "UtsnameNodename") /\
  check_static_slots slot num_cores amount_ram job_duration num_jobs
    = Raise (KeyError "UtsnameNodename") /\
  check_gpu_slots slot num_cores num_gpu amount_ram job_duration num_jobs
    = Raise (KeyError "UtsnameNodename").
Proof.
  intros Hname.
  unfold check_dynamic_slots, check_static_slots, check_gpu_slots, slot_name.
  by rewrite Hname.
Qed.


End Exceptions.

(** ** The store after the three calls of [filter_slots] *)





Section Filtered.
Context `{FloatText}.


End Filtered.




Section Runs.
Context `{FloatText}.





End Runs.

Section WholeRun.
Context `{FloatText}.




End WholeRun.

(** ** What the cap cuts off *)

(** For every cap, positive or negative, the preview is a prefix of the
    full ranking, and no entry that is cut off has more [sim_jobs] than
    an entry that is kept. *)
Theorem rank_keeps_best (maxnodes : Z) (l : list preview_node) :
  exists dropped,
    rank maxnodes l ++ dropped = order_node_preview l /\
    rank maxnodes l ++ dropped ≡ₚ l /\
    forall kept cut, kept ∈ rank maxnodes l -> cut ∈ dropped ->
      pv_sim_jobs cut <= pv_sim_jobs kept.
Proof.
  assert (exists n, rank maxnodes l = take n (order_node_preview l)) as [n Hn].
  { unfold rank, slice_to. destruct (_ && _).
    - destruct (maxnodes <? 0); by eexists.
    - exists (length (order_node_preview l)). by rewrite firstn_all. }
  exists (drop n (order_node_preview l)). rewrite Hn, take_drop.
  split; [done|]. split; [apply sorted_reverse_perm|].
  intros kept cut Hkept Hcut.
  pose proof (sorted_reverse_desc pv_sim_jobs l) as Hsorted.
  fold (order_node_preview l) in Hsorted.
  rewrite <- (take_drop n (order_node_preview l)) in Hsorted.
  apply (StronglySorted_app_1_elem_of _ _ _ kept cut Hsorted Hkept Hcut).
Qed.

(** ** What an evaluator reports *)

Section Reports.
Context `{FloatText}.

Ltac invert_run Hrun :=
  repeat (match type of Hrun with
          | context [rbind ?m _] =>
              match m with
              | Ok _ => fail 1
              | Raise _ => fail 1
              | rbind _ _ => fail 1
              | (if ?b then _ else _) => destruct b
              | _ => destruct m as [?|?]
              end
          end; cbn [rbind negb] in Hrun);
  try done.

(** Whenever an evaluator returns, for any request and any slot: both
    views carry the node name of the entry, [fits] is [YES] exactly when
    the capacity test of the evaluator holds, and a [NO] comes with
    [sim_jobs = 0] and the int 0 as wall time. *)
Theorem evaluators_report_the_capacity_test (slot : slot)
    (num_cores num_gpu : Z) (amount_ram job_duration : Q) (num_jobs : Z)
    (nd : node_dict) (pn : preview_node) :
  let cpu_ram := (num_cores <=? TotalSlotCpus slot) &&
                 Qle_bool amount_ram (TotalSlotMemory slot) in
  let report (test : bool) :=
    UtsnameNodename slot = Some (pv_name pn) /\
    nd_node nd = pv_name pn /\
    (if test then pv_fits pn = "YES"%string
     else pv_fits pn = "NO"%string /\ pv_sim_jobs pn = 0 /\
          pv_wall_time_on_idle pn = PInt 0) in
  (check_dynamic_slots slot num_cores amount_ram job_duration num_jobs
     = Ok (nd, pn) -> report cpu_ram) /\
  (check_static_slots slot num_cores amount_ram job_duration num_jobs
     = Ok (nd, pn) -> report cpu_ram) /\
  (check_gpu_slots slot num_cores num_gpu amount_ram job_duration num_jobs
     = Ok (nd, pn) ->
   report (cpu_ram && (num_gpu <=? TotalSlotGPUs slot))).
Proof.
  cbv zeta. split; [|split].
  - unfold check_dynamic_slots, slot_name. intros Hrun.
    destruct (UtsnameNodename slot) as [name|]; [|done]. cbn [rbind] in Hrun.
    destruct ((num_cores <=? TotalSlotCpus slot) && Qle_bool _ _);
      cbn [andb] in Hrun; invert_run Hrun; injection Hrun as <- <-; done.
  - unfold check_static_slots, slot_name. intros Hrun.
    destruct (UtsnameNodename slot) as [name|]; [|done]. cbn [rbind] in Hrun.
    destruct ((num_cores <=? TotalSlotCpus slot) && Qle_bool _ _);
      cbn [andb] in Hrun; invert_run Hrun; injection Hrun as <- <-; done.
  - unfold check_gpu_slots, slot_name. intros Hrun.
    destruct (UtsnameNodename slot) as [name|]; [|done]. cbn [rbind] in Hrun.
    destruct ((num_cores <=? TotalSlotCpus slot) && Qle_bool _ _
              && (num_gpu <=? TotalSlotGPUs slot));
      cbn [andb] in Hrun; invert_run Hrun; injection Hrun as <- <-; done.
Qed.

End Reports.

(** ** Filtering again *)

Lemma entry_of_node (slots : list node) (n : node) (l : loc) :
  n ∈ slots -> l ∈ slot_size n -> l ∈ entries_of slots.
Proof.
  intros Hn Hl. unfold entries_of. apply list_elem_of_In, in_concat.
  exists (slot_size n). split; [|by apply list_elem_of_In].
  apply in_map. by apply list_elem_of_In.
Qed.

Lemma unique_owner (slots : list node) (n n' : node) (l : loc) :
  NoDup (entries_of slots) ->
  n ∈ slots -> n' ∈ slots -> l ∈ slot_size n -> l ∈ slot_size n' -> n = n'.
Proof.
  induction slots as [|a rest IH]; intros Hnd Hn Hn' Hl Hl';
    [by apply elem_of_nil in Hn|].
  unfold entries_of in Hnd. cbn [map concat] in Hnd.
  apply NoDup_app in Hnd as (_ & Hdisjoint & Hrest).
  apply elem_of_cons in Hn as [->|Hn], Hn' as [->|Hn'].
  - done.
  - destruct (Hdisjoint l Hl). by apply (entry_of_node rest n').
  - destruct (Hdisjoint l Hl'). by apply (entry_of_node rest n).
  - by apply IH.
Qed.

(** On an inventory whose entries are distinct objects a second call of
    [filter_slots] for the same class returns the same list and leaves
    the store as the first call left it. *)
Theorem filter_slots_idempotent (slots : list node) (slot_type : string)
    (w : world) :
  NoDup (entries_of slots) ->
  exists listed w1 w2,
    filter_slots slots slot_type w = (Ok listed, w1) /\
    filter_slots slots slot_type w1 = (Ok listed, w2) /\
    console w2 = console w /\
    forall l, heap w2 l = heap w1 l.
Proof.
  intros Hnd. unfold filter_slots.
  destruct (filter_nodes_spec slot_type slots [] w)
    as (w1 & Hrun1 & Hcon1 & Hheap1).
  destruct (filter_nodes_spec slot_type slots [] w1)
    as (w2 & Hrun2 & Hcon2 & Hheap2).
  assert (forall l, SlotType (heap w1 l) = SlotType (heap w l)) as Hsame.
  { intros l. destruct (Hheap1 l) as [Hout Hin].
    destruct (decide (l ∈ of_class (heap w) slot_type (entries_of slots)))
      as [Hl|Hl]; [|by rewrite (Hout Hl)].
    by destruct (Hin Hl) as (n & _ & _ & ->). }
  rewrite (of_class_ext _ _ _ _ Hsame) in Hrun2, Hheap2.
  cbn [app] in Hrun1, Hrun2.
  do 3 eexists. split; [exact Hrun1|]. split; [exact Hrun2|].
  split; [congruence|]. intros l.
  destruct (Hheap1 l) as [_ Hin1], (Hheap2 l) as [Hout2 Hin2].
  destruct (decide (l ∈ of_class (heap w) slot_type (entries_of slots)))
    as [Hl|Hl]; [|by apply Hout2].
  destruct (Hin1 Hl) as (n & Hn & Hln & E1).
  destruct (Hin2 Hl) as (n' & Hn' & Hln' & E2).
  rewrite E2, E1, (unique_owner slots n n' l); done.
Qed.

(** ** The further properties on the sample inventory *)





(** The text [GB], without a number. *)
Lemma split_without_digit_on_sample :
  split_number_unit (Some "GB"%string) = Raise IndexError /\
  split_duration_unit (Some "GB"%string) = Raise IndexError.
Proof.
  destruct (split_raises_without_digit "GB") as [Hraise _]; [discriminate|].
  apply Hraise. reflexivity.
Defined.

(** The preview of the sample inventory for four cores, capped at one. *)
Lemma view_sizes_on_sample :
  exists res w',
    check_slots (H := fraction_text) [0%nat] [1%nat] [2; 3]%nat 4 16 0 0 10 30
      1 false Sample.filtered_healthy = (Ok (Some res), w') /\
    length (res_slots res) = 2%nat /\
    Z.of_nat (length (res_preview res)) = 1.
Proof.
  destruct (check_slots (H := fraction_text) [0%nat] [1%nat] [2; 3]%nat 4 16 0
              0 10 30 1 false Sample.filtered_healthy)
    as [[[res|]|e] w'] eqn:Hrun; [|discriminate Hrun..].
  exists res, w'. split; [reflexivity|].
  destruct (check_slots_view_sizes (H := fraction_text) _ _ _ _ _ _ _ _ _ _ _
              _ _ _ Hrun) as (_ & Hslots & Hpreview).
  split; [exact Hslots|exact Hpreview].
Defined.





(** The five sample entries capped at two. *)
Lemma rank_keeps_best_on_sample :
  exists dropped,
    rank 2 Sample.previews ++ dropped = order_node_preview Sample.previews.
Proof.
  destruct (rank_keeps_best 2 Sample.previews) as (dropped & Hprefix & _).
  exists dropped. exact Hprefix.
Defined.

(** Nine cores on the static sample slot of eight. *)
Lemma report_on_sample :
  exists nd pn,
    check_static_slots (H := fraction_text) Sample.static_10x8 9 64 30 1
      = Ok (nd, pn) /\
    pv_fits pn = "NO"%string /\ pv_sim_jobs pn = 0 /\
    pv_wall_time_on_idle pn = PInt 0.
Proof.
  destruct (check_static_slots (H := fraction_text) Sample.static_10x8 9 64 30
              1) as [[nd pn]|e] eqn:Hrun; [|discriminate Hrun].
  exists nd, pn. split; [reflexivity|].
  destruct (evaluators_report_the_capacity_test (H := fraction_text)
              Sample.static_10x8 9 0 64 30 1 nd pn) as (_ & Hstatic & _).
  destruct (Hstatic Hrun) as (_ & _ & Hreport). exact Hreport.
Defined.

Lemma sample_entries_distinct : NoDup (entries_of Sample.inventory).
Proof.
  vm_compute. repeat (constructor; [intros Hin;
    repeat (apply elem_of_cons in Hin as [Hin|Hin]; [discriminate Hin|]);
    by apply elem_of_nil in Hin|]). constructor.
Defined.

(** Filtering the sample inventory for static slots twice. *)
Lemma filter_twice_on_sample :
  exists listed w1 w2,
    filter_slots Sample.inventory "static" Sample.start = (Ok listed, w1) /\
    filter_slots Sample.inventory "static" w1 = (Ok listed, w2) /\
    console w2 = console Sample.start /\
    forall l, heap w2 l = heap w1 l.
Proof.
  apply (filter_slots_idempotent Sample.inventory "static" Sample.start).
  exact sample_entries_distinct.
Defined.

(** ** A request without RAM *)

Section ZeroRam.
Context `{FloatText}.


End ZeroRam.

